(** * Voice-ly backend-user-service: the user controller and its validators

    A shallow embedding of [src/controllers/user.controller.ts],
    [src/utils/validators.ts] and the route tables, with the
    properties of the authentication and credential life cycle that the
    specification states about them. *)

From Stdlib Require Import ZArith NArith List Bool Lia String Ascii Decimal.
From stdpp Require Import gmap strings list fin_maps.
Import ListNotations.

Local Open Scope Z_scope.

(** ** JavaScript strings and values *)

(** A JavaScript string is a sequence of UTF-16 code units.  The regular
    expressions of this program carry no [u] flag, so they see a string
    one code unit at a time, and [length] below is the [.length] of the
    JavaScript string. *)
Definition jsstring : Type := list N.

(** The code units of an ASCII literal of the source. *)
Definition lit (s : string) : jsstring :=
  List.map N_of_ascii (list_ascii_of_string s).

(** The scalar values of a JSON request body at a property the controller
    reads, with [JUndefined] for a property that is not there.  [JNum n]
    is the integer [n]; it is the number JavaScript sees, and is printed in
    decimal, for the safe integers (below 2^53 in magnitude).  Fractions,
    numbers beyond that range (among them the infinities a JSON number can
    parse to), arrays and nested objects are not represented: a statement
    about every [JsValue] speaks of the values that are. *)
Inductive JsValue : Type :=
| JUndefined
| JNull
| JBool (b : bool)
| JNum (n : Z)
| JStr (s : jsstring).

#[global] Instance JsValue_eq_dec : EqDecision JsValue.
Proof. solve_decision. Defined.

(** ToBoolean: what [!v] and [if (v)] look at. *)
Definition truthy (v : JsValue) : bool :=
  match v with
  | JUndefined | JNull => false
  | JBool b => b
  | JNum n => negb (n =? 0)
  | JStr s => match s with [] => false | _ :: _ => true end
  end.

Fixpoint uint_codes (d : Decimal.uint) : jsstring :=
  match d with
  | Decimal.Nil => []
  | Decimal.D0 d => 48%N :: uint_codes d
  | Decimal.D1 d => 49%N :: uint_codes d
  | Decimal.D2 d => 50%N :: uint_codes d
  | Decimal.D3 d => 51%N :: uint_codes d
  | Decimal.D4 d => 52%N :: uint_codes d
  | Decimal.D5 d => 53%N :: uint_codes d
  | Decimal.D6 d => 54%N :: uint_codes d
  | Decimal.D7 d => 55%N :: uint_codes d
  | Decimal.D8 d => 56%N :: uint_codes d
  | Decimal.D9 d => 57%N :: uint_codes d
  end.

Definition Z_codes (n : Z) : jsstring :=
  match n with
  | Z0 => [48%N]
  | Zpos p => uint_codes (Pos.to_uint p)
  | Zneg p => 45%N :: uint_codes (Pos.to_uint p)
  end.

(** ToString, as [RegExp.prototype.test] applies it to its argument. *)
Definition toString (v : JsValue) : jsstring :=
  match v with
  | JUndefined => lit "undefined"
  | JNull => lit "null"
  | JBool true => lit "true"
  | JBool false => lit "false"
  | JNum n => Z_codes n
  | JStr s => s
  end.

(** ** The regular expressions of the validators *)

Module Regex.

(** The members of a bracketed class. *)
Inductive ClassItem : Type :=
| CRange (lo hi : N)        (* a-z *)
| CChar (c : N)             (* _ *)
| CNotWord.                 (* \W *)

(** The fragment of ECMAScript patterns the program writes. *)
Inductive Regex : Type :=
| Bol                               (* ^ *)
| Eol                               (* $ *)
| Dot                               (* . *)
| Class (items : list ClassItem)    (* [...] *)
| Lookahead (r : Regex)             (* (?=r) *)
| Seq (r1 r2 : Regex)               (* r1r2 *)
| Star (r : Regex)                  (* r* *)
| AtLeast (n : nat) (r : Regex).    (* r{n,} *)

Definition inRange (lo hi c : N) : bool := ((lo <=? c) && (c <=? hi))%N.

(** LF, CR, LS and PS: the code units [.] refuses. *)
Definition isLineTerminator (c : N) : bool :=
  ((c =? 10) || (c =? 13) || (c =? 8232) || (c =? 8233))%N.

(** \w is [A-Za-z0-9_]. *)
Definition isWordChar (c : N) : bool :=
  inRange 97 122 c || inRange 65 90 c || inRange 48 57 c || (c =? 95)%N.

Definition inItem (i : ClassItem) (c : N) : bool :=
  match i with
  | CRange lo hi => inRange lo hi c
  | CChar d => (c =? d)%N
  | CNotWord => negb (isWordChar c)
  end.

Definition inClass (items : list ClassItem) (c : N) : bool :=
  existsb (fun i => inItem i c) items.

(** A matcher state: the index reached and the input left from there. *)
Definition State : Type := nat * jsstring.

(** Consume one code unit that satisfies [ok]. *)
Definition one (ok : N -> bool) (st : State) : list State :=
  match snd st with
  | c :: rest => if ok c then [(S (fst st), rest)] else []
  | [] => []
  end.

(** Greedy iteration of [step]: the longest runs come first, an
    iteration that consumes nothing is refused, and [fuel] bounds the
    number of iterations (each one advances the index). *)
Fixpoint iter (step : State -> list State) (fuel : nat) (st : State)
  : list State :=
  match fuel with
  | O => [st]
  | S fuel' =>
      flat_map (fun st' => if (fst st <? fst st')%nat
                           then iter step fuel' st' else [])
               (step st) ++ [st]
  end.

(** [n] mandatory iterations of [step]. *)
Fixpoint times (step : State -> list State) (n : nat) (st : State)
  : list State :=
  match n with
  | O => [st]
  | S n' => flat_map (times step n') (step st)
  end.

(** The backtracking matcher: every state in which a match of [r]
    started at [st] can end, in the order a backtracking engine tries
    them. *)
Fixpoint matchR (r : Regex) (st : State) : list State :=
  match r with
  | Bol => if (fst st =? 0)%nat then [st] else []
  | Eol => match snd st with [] => [st] | _ :: _ => [] end
  | Dot => one (fun c => negb (isLineTerminator c)) st
  | Class items => one (inClass items) st
  | Lookahead r' => match matchR r' st with [] => [] | _ :: _ => [st] end
  | Seq r1 r2 => flat_map (matchR r2) (matchR r1 st)
  | Star r' => iter (matchR r') (length (snd st)) st
  | AtLeast n r' =>
      flat_map (fun st' => iter (matchR r') (length (snd st')) st')
               (times (matchR r') n st)
  end.

Definition matchesAt (r : Regex) (s : jsstring) (i : nat) : bool :=
  match matchR r (i, skipn i s) with [] => false | _ :: _ => true end.

(** [r.test(s)] for a pattern without the [g] and [y] flags: a match may
    start at any index of [s]. *)
Definition test (r : Regex) (s : jsstring) : bool :=
  existsb (matchesAt r s) (seq 0 (S (length s))).

End Regex.

Import Regex.

Definition lowerClass : Regex := Class [CRange 97 122].          (* [a-z] *)
Definition upperClass : Regex := Class [CRange 65 90].           (* [A-Z] *)
Definition specialClass : Regex := Class [CNotWord; CChar 95].   (* [\W_] *)

(** /^(?=.*[a-z])(?=.*[A-Z])(?=.*[\W_]).{8,}$/, the literal that
    [isValidPassword] and [createUser] both write. *)
Definition passwordRegex : Regex :=
  Seq Bol
   (Seq (Lookahead (Seq (Star Dot) lowerClass))
    (Seq (Lookahead (Seq (Star Dot) upperClass))
     (Seq (Lookahead (Seq (Star Dot) specialClass))
      (Seq (AtLeast 8 Dot) Eol)))).

(** validators.ts *)
Definition isValidPassword (password : jsstring) : bool :=
  test passwordRegex password.

(** ** Auxiliary functions for reasoning about the password pattern *)

Definition nonempty {A : Type} (l : list A) : bool :=
  match l with [] => false | _ :: _ => true end.

Definition accepts (r : Regex) (st : State) : bool := nonempty (matchR r st).

Definition notLT (c : N) : bool := negb (isLineTerminator c).

(** The states a greedy run of [ok] code units can stop in. *)
Fixpoint runs (ok : N -> bool) (p : nat) (l : jsstring) : list State :=
  match l with
  | c :: rest => if ok c then runs ok (S p) rest ++ [(p, l)] else [(p, l)]
  | [] => [(p, l)]
  end.

(** Some code unit of the class can be reached through [ok] code units. *)
Fixpoint reach (ok : N -> bool) (cls : list ClassItem) (l : jsstring) : bool :=
  match l with
  | c :: rest => inClass cls c || (ok c && reach ok cls rest)
  | [] => false
  end.

(** ** The password rule in the words of the specification *)

Definition isLower (c : N) : bool := inRange 97 122 c.
Definition isUpper (c : N) : bool := inRange 65 90 c.
Definition isDigit (c : N) : bool := inRange 48 57 c.

(** A code unit that is neither a letter nor a digit. *)
Definition isSpecial (c : N) : bool :=
  negb (isLower c || isUpper c || isDigit c).

(** The rule of section 4.1 of the specification, word for word: length at
    least 8, a lowercase letter, an uppercase letter, and a character that
    is neither a letter nor a digit. *)
Definition stated_password_rule (p : jsstring) : Prop :=
  (8 <= length p)%nat /\
  (exists c, In c p /\ isLower c = true) /\
  (exists c, In c p /\ isUpper c = true) /\
  (exists c, In c p /\ isSpecial c = true).

(** "Abcdefg!" followed by a line feed. *)
Definition newline_password : jsstring := lit "Abcdefg!" ++ [10%N].


(** ** Requests, responses and thrown errors *)

(** Reading a property of an object: [undefined] when it is not there. *)
Definition prop (o : gmap string JsValue) (k : string) : JsValue :=
  default JUndefined (o !! k).

(** types/express/index.d.ts: what the authorization middleware leaves in
    [req.user]. *)
Record AuthUser : Type := {
  uid : jsstring;
  authEmail : option jsstring
}.

(** The parts of an Express request a client or the middleware fills in.
    [body] is the object [express.json()] parsed. *)
Record Request : Type := {
  body : gmap string JsValue;
  params : gmap string jsstring;
  query : gmap string jsstring;
  headers : gmap string jsstring;
  user : option AuthUser
}.

(** The object literal [createUser] builds (lines 58-65). *)
Record User : Type := {
  firstName : JsValue;
  lastName : JsValue;
  age : JsValue;
  email : JsValue;
  password : JsValue;
  createdAt : Z
}.

(** A stored user as the service layer hands it back: the document and
    its identifier. *)
Record UserWithId : Type := {
  id : jsstring;
  fields : gmap string JsValue
}.

(** A thrown or rejected [Error] object, with its message.  A promise
    that rejects with a value that has no message, or that never settles,
    is not represented. *)
Record Error : Type := { message : string }.

(** The JSON bodies the handlers send. *)
Inductive ResBody : Type :=
| Message (text : string)                    (* { message } *)
| ErrorBody (text : string)                  (* { error } *)
| Created (newId : jsstring) (text : string) (* { id, message } *)
| Token (token : jsstring)                   (* { token } *)
| Users (users : list UserWithId).           (* the array of users *)

Record Response : Type := {
  status : Z;
  json : ResBody
}.

(** [res.status(code).json(b)]; [res.json(b)] alone answers 200. *)
Definition res (code : Z) (b : ResBody) : Response :=
  {| status := code; json := b |}.

(** ** The calls a handler makes and the programs built from them *)

(** The functions the controller imports: the service layer, bcrypt and
    jsonwebtoken.  A handler only sees what they answer. *)
Inductive Call : Type :=
| findUserByEmailService (email : JsValue)
| createUserService (userData : User)
| getUsersService
| updateUserService (userId : jsstring) (data : gmap string JsValue)
| deleteUserService (userId : jsstring)
| bcrypt_hash (data : JsValue) (saltRounds : Z)
| bcrypt_compare (data : JsValue) (encrypted : JsValue)
| sign (payloadUid : jsstring) (payloadEmail : JsValue)
       (secret : jsstring) (expiresIn : jsstring).

Definition Answer (c : Call) : Type :=
  match c with
  | findUserByEmailService _ => option UserWithId
  | createUserService _ => jsstring
  | getUsersService => list UserWithId
  | updateUserService _ _ => unit
  | deleteUserService _ => unit
  | bcrypt_hash _ _ => jsstring
  | bcrypt_compare _ _ => bool
  | sign _ _ _ _ => jsstring
  end.

(** A call returns (its promise is fulfilled) or throws (it is rejected). *)
Inductive Result (X : Type) : Type :=
| Ok (x : X)
| Rejected (e : Error).
Arguments Ok {X} x.
Arguments Rejected {X} e.

(** The body of an async handler: it returns, throws, or makes a call and
    goes on with the answer. *)
Inductive Prog (R : Type) : Type :=
| Ret (r : R)
| Throw (e : Error)
| Await (c : Call) (k : Result (Answer c) -> Prog R).
Arguments Ret {R} r.
Arguments Throw {R} e.
Arguments Await {R} c k.

Fixpoint bind {A B : Type} (p : Prog A) (f : A -> Prog B) : Prog B :=
  match p with
  | Ret a => f a
  | Throw e => Throw e
  | Await c k => Await c (fun r => bind (k r) f)
  end.

#[global] Instance Prog_ret : MRet Prog := fun _ r => Ret r.
#[global] Instance Prog_bind : MBind Prog := fun _ _ f p => bind p f.

(** [await c]: the answer of the call, or its rejection thrown here. *)
Definition await (c : Call) : Prog (Answer c) :=
  Await c (fun r => match r with Ok x => Ret x | Rejected e => Throw e end).

(** [try { p } catch (error) { h error }] *)
Fixpoint tryCatch {A : Type} (p : Prog A) (h : Error -> Prog A) : Prog A :=
  match p with
  | Ret a => Ret a
  | Throw e => h e
  | Await c k => Await c (fun r => tryCatch (k r) h)
  end.

(** What running a program leaves behind: its result, the state of the
    world of the collaborators, and the calls made, in order. *)
Record Outcome (W R : Type) : Type := {
  result : Result R;
  world : W;
  calls : list Call
}.
Arguments result {W R} o.
Arguments world {W R} o.
Arguments calls {W R} o.

(** Run a program against any implementation [perform] of the calls. *)
Fixpoint exec {W R : Type}
    (perform : forall c : Call, W -> Result (Answer c) * W)
    (p : Prog R) (w : W) : Outcome W R :=
  match p with
  | Ret r => {| result := Ok r; world := w; calls := [] |}
  | Throw e => {| result := Rejected e; world := w; calls := [] |}
  | Await c k =>
      let o := exec perform (k (fst (perform c w))) (snd (perform c w)) in
      {| result := result o; world := world o; calls := c :: calls o |}
  end.

(** ** controllers/user.controller.ts *)

(** The truthiness of a variable of [process.env]: a string, or undefined
    when the variable is not set. *)
Definition envTruthy (v : option jsstring) : bool :=
  match v with
  | Some s => truthy (JStr s)
  | None => false
  end.

Definition createUser (now : Z) (req : Request) : Prog Response :=
  tryCatch
    (let firstName := prop (body req) "firstName" in
     let lastName := prop (body req) "lastName" in
     let age := prop (body req) "age" in
     let email := prop (body req) "email" in
     let password := prop (body req) "password" in
     if negb (truthy email) || negb (truthy password)
        || negb (truthy firstName) || negb (truthy lastName)
        || negb (truthy age)
     then Ret (res 400 (Message "Todos los campos son obligatorios"))
     else if negb (test passwordRegex (toString password))
     then Ret (res 400 (Message
       "La contraseña debe tener al menos 8 caracteres, incluir letra mayúscula, minúscula y un caracter especial"))
     else
       existingUser ← await (findUserByEmailService email);
       match existingUser with
       | Some _ => Ret (res 400 (Message "El correo ya está registrado"))
       | None =>
           let userData :=
             {| firstName := firstName; lastName := lastName; age := age;
                email := email; password := password; createdAt := now |} in
           id ← await (createUserService userData);
           Ret (res 201 (Created id "Usuario creado correctamente"))
       end)
    (fun error => Ret (res 500 (ErrorBody (message error)))).

Definition getUsers (req : Request) : Prog Response :=
  tryCatch
    (users ← await getUsersService;
     Ret (res 200 (Users users)))
    (fun error => Ret (res 500 (ErrorBody (message error)))).

Definition updateUser (req : Request) : Prog Response :=
  tryCatch
    (match user req with
     | None => Ret (res 401 (Message "Token inválido"))
     | Some u =>
         let userId := uid u in
         let data := body req in
         data ← (if truthy (prop data "password")
                 then hashed ← await (bcrypt_hash (prop data "password") 10);
                      Ret (<["password" := JStr hashed]> data)
                 else Ret data);
         _ ← await (updateUserService userId data);
         Ret (res 200 (Message "Usuario actualizado"))
     end)
    (fun error => Ret (res 500 (ErrorBody (message error)))).

Definition deleteUser (req : Request) : Prog Response :=
  tryCatch
    (match user req with
     | None => Ret (res 401 (Message "Token inválido"))
     | Some u =>
         let userId := uid u in
         _ ← await (deleteUserService userId);
         Ret (res 200 (Message "Usuario eliminado correctamente"))
     end)
    (fun error => Ret (res 500 (ErrorBody (message error)))).

Definition loginUser (env : gmap string jsstring) (req : Request)
  : Prog Response :=
  tryCatch
    (let email := prop (body req) "email" in
     let password := prop (body req) "password" in
     if negb (truthy email) || negb (truthy password)
     then Ret (res 400 (Message "Email y contraseña requeridos"))
     else
       found ← await (findUserByEmailService email);
       match found with
       | None => Ret (res 401 (Message "Usuario no encontrado"))
       | Some u =>
           matched ← await (bcrypt_compare password (prop (fields u) "password"));
           if negb matched
           then Ret (res 401 (Message "Contraseña incorrecta"))
           else
             let secret := env !! "JWT_SECRET" in
             if negb (envTruthy secret)
             then Throw {| message := "JWT_SECRET no definido" |}
             else
               let expiresIn :=
                 if envTruthy (env !! "JWT_EXPIRES_IN")
                 then default [] (env !! "JWT_EXPIRES_IN")
                 else lit "1h" in
               token ← await (sign (id u) (prop (fields u) "email")
                                   (default [] secret) expiresIn);
               Ret (res 200 (Token token))
       end)
    (fun error => Ret (res 500 (ErrorBody (message error)))).

(** ** The routers *)

Inductive Method : Type := GET | POST | PUT | DELETE.

(** The functions a route chains. *)
Inductive Middleware : Type :=
| VerifyToken
| CreateUser
| GetUsers
| UpdateUser
| DeleteUser
| LoginUser
| LogoutUser
| ForgotPassword
| ResetPassword.

Record Route : Type := {
  method : Method;
  path : string;
  chain : list Middleware
}.

(** routes/user.routes.ts *)
Definition userRoutes : list Route :=
  [ {| method := GET; path := "/profile"; chain := [VerifyToken; GetUsers] |};
    {| method := PUT; path := "/profile"; chain := [VerifyToken; UpdateUser] |};
    {| method := DELETE; path := "/profile"; chain := [VerifyToken; DeleteUser] |};
    {| method := POST; path := "/"; chain := [CreateUser] |} ].

(** The users router with the login route (the second router of the
    sources that imports the user controller and [verifyToken]). *)
Definition userLoginRoutes : list Route :=
  [ {| method := POST; path := "/"; chain := [CreateUser] |};
    {| method := POST; path := "/login"; chain := [LoginUser] |};
    {| method := GET; path := "/"; chain := [VerifyToken; GetUsers] |};
    {| method := PUT; path := "/profile"; chain := [VerifyToken; UpdateUser] |};
    {| method := DELETE; path := "/"; chain := [VerifyToken; DeleteUser] |} ].

(** The auth router. *)
Definition authRoutes : list Route :=
  [ {| method := POST; path := "/login"; chain := [LoginUser] |};
    {| method := POST; path := "/logout"; chain := [LogoutUser] |};
    {| method := POST; path := "/forgot-password"; chain := [ForgotPassword] |};
    {| method := POST; path := "/reset-password"; chain := [ResetPassword] |} ].

Definition allRoutes : list Route := userRoutes ++ userLoginRoutes ++ authRoutes.

(** The handlers behind the update, delete and list operations. *)
Definition protected (m : Middleware) : bool :=
  match m with
  | GetUsers | UpdateUser | DeleteUser => true
  | _ => false
  end.

(** A route is gated when [verifyToken] runs before anything else. *)
Definition gated (r : Route) : bool :=
  match chain r with
  | VerifyToken :: _ => true
  | _ => false
  end.

(** ** Vocabulary of the statements *)

(** The fields a registration must carry. *)
Definition required : list string :=
  ["firstName"; "lastName"; "age"; "email"; "password"].

(** A field is missing for the controller when its test [!field] holds:
    the property is not in the body, or it is null, false, 0 or the empty
    string. *)
Definition missing (b : gmap string JsValue) (k : string) : Prop :=
  truthy (prop b k) = false.

(** The record [createUser] hands to the store for a body. *)
Definition userDataOf (now : Z) (b : gmap string JsValue) : User :=
  {| firstName := prop b "firstName"; lastName := prop b "lastName";
     age := prop b "age"; email := prop b "email";
     password := prop b "password"; createdAt := now |}.

Definition allFieldsMessage : string := "Todos los campos son obligatorios".
Definition weakPasswordMessage : string :=
  "La contraseña debe tener al menos 8 caracteres, incluir letra mayúscula, minúscula y un caracter especial".
Definition emailTakenMessage : string := "El correo ya está registrado".
Definition createdMessage : string := "Usuario creado correctamente".
Definition credentialsRequiredMessage : string := "Email y contraseña requeridos".
Definition notFoundMessage : string := "Usuario no encontrado".
Definition wrongPasswordMessage : string := "Contraseña incorrecta".
Definition noSecretMessage : string := "JWT_SECRET no definido".
Definition invalidTokenMessage : string := "Token inválido".

(** The lifetime [loginUser] asks [sign] for. *)
Definition expiresInOf (env : gmap string jsstring) : jsstring :=
  if envTruthy (env !! "JWT_EXPIRES_IN")
  then default [] (env !! "JWT_EXPIRES_IN") else lit "1h".

(** The record a call to the store mutates or deletes. *)
Definition target (c : Call) : option jsstring :=
  match c with
  | updateUserService userId _ => Some userId
  | deleteUserService userId => Some userId
  | _ => None
  end.

Definition targets (cs : list Call) : list jsstring := omap target cs.

Definition isHash (c : Call) : bool :=
  match c with bcrypt_hash _ _ => true | _ => false end.

Definition isSign (c : Call) : bool :=
  match c with sign _ _ _ _ => true | _ => false end.

Definition isCreate (c : Call) : bool :=
  match c with createUserService _ => true | _ => false end.

(** The handler itself turns the request away as unauthorized. *)
Definition answers401 {W : Type} (o : Outcome W Response) : bool :=
  match result o with
  | Ok r => status r =? 401
  | Rejected _ => false
  end.

(** An outcome with one more call in front. *)
Definition after {W R : Type} (c : Call) (o : Outcome W R) : Outcome W R :=
  {| result := result o; world := world o; calls := c :: calls o |}.

(** The outcome of a handler that answers without a further call. *)
Definition answered {W : Type} (r : Response) (w : W) : Outcome W Response :=
  {| result := Ok r; world := w; calls := [] |}.

(** ** The collaborators, for running the handlers *)

(** Modelled from the spec: the User Credential Store behind
    services/user.service.ts, which is not among the sources.  It persists
    user records keyed by an identifier it assigns on creation; the records
    are kept in creation order.  [hashes] counts the salts bcrypt has
    drawn. *)
Record World : Type := {
  store : list (jsstring * gmap string JsValue);
  nextId : Z;
  hashes : Z
}.

(** Modelled from the spec: the record is persisted as it is handed over. *)
Definition docOf (u : User) : gmap string JsValue :=
  {[ "firstName" := firstName u; "lastName" := lastName u; "age" := age u;
     "email" := email u; "password" := password u;
     "createdAt" := JNum (createdAt u) ]}.

(** Modelled from the spec: a record as a lookup hands it back. *)
Definition withId (entry : jsstring * gmap string JsValue) : UserWithId :=
  {| id := fst entry; fields := snd entry |}.

(** Modelled from the spec: lookup by email, the first record whose email
    is the one asked for. *)
Definition findByEmail (email : JsValue)
    (docs : list (jsstring * gmap string JsValue)) : option UserWithId :=
  withId <$> List.find (fun entry => bool_decide (snd entry !! "email" = Some email)) docs.

(** Modelled from the spec: an update takes partial fields.  The spec
    gives no rule for how the store applies them; here they replace the
    fields of the same name in the record with that identifier, as the
    update of a document store does.  The examples that run an update only
    look at the calls and the answer of the handler, not at what this rule
    stores. *)
Definition updateDoc (userId : jsstring) (data : gmap string JsValue)
    (docs : list (jsstring * gmap string JsValue))
  : list (jsstring * gmap string JsValue) :=
  List.map (fun entry => if bool_decide (fst entry = userId)
                         then (fst entry, data ∪ snd entry) else entry) docs.

(** Modelled from the spec: deletion removes the record with that
    identifier. *)
Definition deleteDoc (userId : jsstring)
    (docs : list (jsstring * gmap string JsValue))
  : list (jsstring * gmap string JsValue) :=
  List.filter (fun entry => negb (bool_decide (fst entry = userId))) docs.

(** Modelled from the spec: the Credential Hasher (the bcrypt package).
    A stand-in that keeps the shape of a bcrypt string, the cost and a
    salt, and lets [bcryptVerify] recognise what [bcryptHash] made. *)
Definition bcryptHash (salt : Z) (plaintext : jsstring) : jsstring :=
  lit "$2b$10$" ++ Z_codes salt ++ [36%N] ++ plaintext.

(** Modelled from the spec: skipping the salt of such a string. *)
Fixpoint dropDigits (l : jsstring) : jsstring :=
  match l with
  | c :: rest => if inRange 48 57 c then dropDigits rest else l
  | [] => []
  end.

(** Modelled from the spec: [verify] recomputes and compares; it is false
    on any mismatch. *)
Definition bcryptVerify (plaintext hash : jsstring) : bool :=
  bool_decide (firstn 7 hash = lit "$2b$10$") &&
  bool_decide (dropDigits (skipn 7 hash) = 36%N :: plaintext).

(** Modelled from the spec: the Token Issuer (jsonwebtoken's [sign]).
    A stand-in that carries the claims. *)
Definition issueToken (uid : jsstring) (email : JsValue)
    (secret expiresIn : jsstring) : jsstring :=
  lit "jwt." ++ uid ++ [46%N] ++ toString email ++ [46%N] ++ expiresIn.

(** Modelled from the spec: what each call answers and how it changes the
    world. *)
Definition services (c : Call) (w : World) : Result (Answer c) * World :=
  match c with
  | findUserByEmailService email => (Ok (findByEmail email (store w)), w)
  | createUserService userData =>
      let newId := lit "user" ++ Z_codes (nextId w) in
      (Ok newId,
       {| store := store w ++ [(newId, docOf userData)];
          nextId := nextId w + 1; hashes := hashes w |})
  | getUsersService => (Ok (List.map withId (store w)), w)
  | updateUserService userId data =>
      (Ok tt, {| store := updateDoc userId data (store w);
                 nextId := nextId w; hashes := hashes w |})
  | deleteUserService userId =>
      (Ok tt, {| store := deleteDoc userId (store w);
                 nextId := nextId w; hashes := hashes w |})
  | bcrypt_hash (JStr s) _ =>
      (Ok (bcryptHash (hashes w) s),
       {| store := store w; nextId := nextId w; hashes := hashes w + 1 |})
  | bcrypt_hash _ _ =>
      (Rejected {| message := "data must be a string or Buffer and salt must either be a salt string or a number of rounds" |}, w)
  | bcrypt_compare (JStr s) (JStr h) => (Ok (bcryptVerify s h), w)
  | bcrypt_compare _ _ =>
      (Rejected {| message := "data and hash must be strings" |}, w)
  | sign uid email secret expiresIn =>
      (Ok (issueToken uid email secret expiresIn), w)
  end.

(** The stored value of a field of the record with a given identifier. *)
Definition storedField (w : World) (userId : jsstring) (k : string)
  : option JsValue :=
  List.find (fun entry => bool_decide (fst entry = userId)) (store w)
  ≫= (fun entry => snd entry !! k).

(** An empty store. *)
Definition emptyWorld : World := {| store := []; nextId := 1; hashes := 0 |}.

(** ** The requests of the examples *)

Definition noRequest : Request :=
  {| body := ∅; params := ∅; query := ∅; headers := ∅; user := None |}.

Definition withBody (b : gmap string JsValue) : Request :=
  {| body := b; params := ∅; query := ∅; headers := ∅; user := None |}.

Definition withUser (u : AuthUser) (b : gmap string JsValue) : Request :=
  {| body := b; params := ∅; query := ∅; headers := ∅; user := Some u |}.

(** The registration of end-to-end scenario 1 of the specification. *)
Definition registration : gmap string JsValue :=
  {[ "firstName" := JStr (lit "A"); "lastName" := JStr (lit "B");
     "age" := JNum 30; "email" := JStr (lit "a@b.com");
     "password" := JStr (lit "Abcdefg!") ]}.

Definition credentials (email password : string) : gmap string JsValue :=
  {[ "email" := JStr (lit email); "password" := JStr (lit password) ]}.

(** A store that holds one user whose password was hashed. *)
Definition oneUserWorld : World :=
  {| store := [(lit "user1",
                {[ "firstName" := JStr (lit "A"); "lastName" := JStr (lit "B");
                   "age" := JNum 30; "email" := JStr (lit "a@b.com");
                   "password" := JStr (bcryptHash 0 (lit "Abcdefg!"));
                   "createdAt" := JNum 0 ]})];
     nextId := 2; hashes := 1 |}.

Definition configured : gmap string jsstring :=
  {[ "JWT_SECRET" := lit "s3cret" ]}.

(** ** Further requests and worlds of the examples *)

Definition weakRegistration : gmap string JsValue :=
  <["password" := JStr (lit "weakpass")]> registration.

Definition afterRegistration : World :=
  {| store := [(lit "user1", docOf (userDataOf 0 registration))];
     nextId := 2; hashes := 0 |}.

Definition goodLogin : Request := withBody (credentials "a@b.com" "Abcdefg!").
Definition wrongPasswordLogin : Request := withBody (credentials "a@b.com" "Abcdefg?").
Definition unknownLogin : Request := withBody (credentials "nobody@b.com" "Abcdefg!").

(** The record of [oneUserWorld] as the store hands it back. *)
Definition storedUser : UserWithId :=
  default {| id := []; fields := ∅ |}
          (findByEmail (JStr (lit "a@b.com")) (store oneUserWorld)).

Definition emptySecret : gmap string jsstring := {[ "JWT_SECRET" := [] ]}.

Definition alice : AuthUser := {| uid := lit "user1"; authEmail := Some (lit "a@b.com") |}.

(** An update of Alice's first name. *)
Definition renameRequest : Request :=
  withUser alice {[ "firstName" := JStr (lit "Alice") ]}.

(** The same update with identifiers of another user in the body, the URL
    parameters and the query. *)
Definition spoofedRequest : Request :=
  {| body := {[ "firstName" := JStr (lit "Alice");
                "id" := JStr (lit "user2"); "uid" := JStr (lit "user2") ]};
     params := {[ "id" := lit "user2" ]};
     query := {[ "uid" := lit "user2" ]};
     headers := ∅;
     user := Some alice |}.

(** ** The email pattern of the validators *)

Module EmailPattern.

(** The members of the bracketed class of the email pattern. *)
Inductive EmailItem : Type :=
| ESpace            (* \s *)
| EChar (c : N).    (* @ *)

(** The fragment of ECMAScript patterns [isValidEmail] writes. *)
Inductive EmailRegex : Type :=
| EBol                                  (* ^ *)
| EEol                                  (* $ *)
| ELit (c : N)                          (* @ and \. *)
| ENotClass (items : list EmailItem)    (* [^...] *)
| EPlus (r : EmailRegex)                (* r+ *)
| ESeq (r1 r2 : EmailRegex).            (* r1r2 *)

(** \s: the white space and line terminator code units of ECMAScript. *)
Definition isSpace (c : N) : bool :=
  inRange 9 13 c || (c =? 32)%N || (c =? 160)%N || (c =? 5760)%N
  || inRange 8192 8202 c || (c =? 8232)%N || (c =? 8233)%N
  || (c =? 8239)%N || (c =? 8287)%N || (c =? 12288)%N || (c =? 65279)%N.

Definition inEmailItem (i : EmailItem) (c : N) : bool :=
  match i with
  | ESpace => isSpace c
  | EChar d => (c =? d)%N
  end.

Definition notInClass (items : list EmailItem) (c : N) : bool :=
  negb (existsb (fun i => inEmailItem i c) items).

(** The backtracking matcher, as [matchR]; [r+] is one mandatory match of
    [r] followed by a greedy iteration. *)
Fixpoint matchE (r : EmailRegex) (st : State) : list State :=
  match r with
  | EBol => if (fst st =? 0)%nat then [st] else []
  | EEol => match snd st with [] => [st] | _ :: _ => [] end
  | ELit c => one (fun d => (d =? c)%N) st
  | ENotClass items => one (notInClass items) st
  | EPlus r' =>
      flat_map (fun st' => iter (matchE r') (length (snd st')) st')
               (times (matchE r') 1 st)
  | ESeq r1 r2 => flat_map (matchE r2) (matchE r1 st)
  end.

Definition matchesAtE (r : EmailRegex) (s : jsstring) (i : nat) : bool :=
  match matchE r (i, skipn i s) with [] => false | _ :: _ => true end.

Definition testE (r : EmailRegex) (s : jsstring) : bool :=
  existsb (matchesAtE r s) (seq 0 (S (length s))).

End EmailPattern.

Import EmailPattern.

(** [^\s@]+ *)
Definition emailPart : EmailRegex := EPlus (ENotClass [ESpace; EChar 64]).

(** /^[^\s@]+@[^\s@]+\.[^\s@]+$/ *)
Definition emailRegex : EmailRegex :=
  ESeq EBol
   (ESeq emailPart
    (ESeq (ELit 64)
     (ESeq emailPart
      (ESeq (ELit 46)
       (ESeq emailPart EEol))))).

(** validators.ts *)
Definition isValidEmail (email : jsstring) : bool :=
  testE emailRegex email.

(** A code unit that [^\s@] accepts. *)
Definition emailChar (c : N) : bool := notInClass [ESpace; EChar 64] c.

Definition acceptsE (r : EmailRegex) (st : State) : bool := nonempty (matchE r st).

(** ** Further vocabulary: routes and calls *)

#[global] Instance Method_eq_dec : EqDecision Method.
Proof. solve_decision. Defined.

#[global] Instance Middleware_eq_dec : EqDecision Middleware.
Proof. solve_decision. Defined.

(** The handlers user.controller.ts exports (lines 33, 89, 113, 146, 170). *)
Definition controllerExports : list Middleware :=
  [CreateUser; GetUsers; UpdateUser; DeleteUser; LoginUser].

Definition exported (m : Middleware) : bool :=
  bool_decide (m ∈ controllerExports).

(** The handlers a router names. *)
Definition handlersOf (routes : list Route) : list Middleware :=
  flat_map chain routes.

(** What a router matches a request on. *)
Definition routeKey (r : Route) : Method * string := (method r, path r).

Definition isFind (c : Call) : bool :=
  match c with findUserByEmailService _ => true | _ => false end.

Definition isCompare (c : Call) : bool :=
  match c with bcrypt_compare _ _ => true | _ => false end.

Definition isList (c : Call) : bool :=
  match c with getUsersService => true | _ => false end.

Definition isUpdate (c : Call) : bool :=
  match c with updateUserService _ _ => true | _ => false end.

Definition isDelete (c : Call) : bool :=
  match c with deleteUserService _ => true | _ => false end.

(** The status of the answer, when there is one. *)
Definition statusOf {W : Type} (o : Outcome W Response) : option Z :=
  match result o with
  | Ok r => Some (status r)
  | Rejected _ => None
  end.

(** "Abcdefg" followed by an accented letter (U+00E9). *)
Definition accentedPassword : jsstring := lit "Abcdefg" ++ [233%N].

(** What a handler's [catch] answers: 500 with the message of the error. *)
Definition serverError {W : Type} (e : Error) (w : W) : Outcome W Response :=
  answered (res 500 (ErrorBody (message e))) w.

(** The calls each handler may make. *)
Definition createUserCall (c : Call) : bool := isFind c || isCreate c.
Definition loginUserCall (c : Call) : bool := isFind c || isCompare c || isSign c.
Definition updateUserCall (c : Call) : bool := isHash c || isUpdate c.

(** ** Failing collaborators, for the examples *)

(** The modelled collaborators, except that the calls [fails] selects are
    rejected. *)
Definition faulty (fails : Call -> bool) (c : Call) (w : World)
  : Result (Answer c) * World :=
  if fails c then (Rejected {| message := "unavailable" |}, w) else services c w.

Definition unavailable : Error := {| message := "unavailable" |}.

(** The integers JavaScript represents exactly, and prints in decimal. *)
Definition safeInteger (n : Z) : Prop := - 2 ^ 53 < n < 2 ^ 53.

(** A registration with a number for a password. *)
Definition numericPasswordRegistration : gmap string JsValue :=
  <["password" := JNum 12345678]> registration.

(** A registration whose email has no @. *)
Definition badEmailRegistration : gmap string JsValue :=
  <["email" := JStr (lit "not-an-email")]> registration.

(** An update of Alice's password to a one-letter password. *)
Definition weakPasswordUpdate : Request :=
  withUser alice {[ "password" := JStr (lit "a") ]}.

(** An update of Alice's password to the empty string. *)
Definition emptyPasswordUpdate : Request :=
  withUser alice {[ "password" := JStr [] ]}.

(** An update of Alice's password to a number. *)
Definition numericPasswordUpdate : Request :=
  withUser alice {[ "password" := JNum 5 ]}.

(** A login with a number for a password. *)
Definition numericPasswordLogin : Request :=
  withBody {[ "email" := JStr (lit "a@b.com"); "password" := JNum 5 ]}.
(** * Properties *)

(** ** What the password pattern accepts *)

Lemma nonempty_flat_map {A B : Type} (f : A -> list B) (l : list A) :
  nonempty (flat_map f l) = existsb (fun a => nonempty (f a)) l.
Proof.
  induction l as [|a l IH]; simpl; [reflexivity|].
  destruct (f a); simpl; auto.
Qed.

Lemma iter_one_runs (ok : N -> bool) (fuel : nat) :
  forall (p : nat) (l : jsstring),
    (length l <= fuel)%nat -> iter (one ok) fuel (p, l) = runs ok p l.
Proof.
  induction fuel as [|fuel IH]; intros p l Hlen.
  - destruct l; simpl in *; [reflexivity | lia].
  - destruct l as [|c rest]; simpl; [reflexivity|].
    unfold one; simpl. destruct (ok c); simpl; [|reflexivity].
    rewrite app_nil_r.
    replace (p <? S p)%nat with true by (symmetry; apply Nat.ltb_lt; lia).
    rewrite IH by (simpl in Hlen; lia). reflexivity.
Qed.

Lemma times_one (ok : N -> bool) (n : nat) :
  forall (p : nat) (l : jsstring),
    times (one ok) n (p, l) =
    if (n <=? length l)%nat && forallb ok (firstn n l)
    then [((p + n)%nat, skipn n l)] else [].
Proof.
  induction n as [|n IH]; intros p l; simpl.
  - rewrite Nat.add_0_r. reflexivity.
  - destruct l as [|c rest]; simpl; [reflexivity|].
    unfold one; simpl. destruct (ok c); simpl;
      [|rewrite andb_false_r; reflexivity].
    rewrite app_nil_r, IH.
    replace (S p + n)%nat with (p + S n)%nat by lia. reflexivity.
Qed.

Lemma runs_reach (ok : N -> bool) (cls : list ClassItem) (l : jsstring) :
  forall p : nat,
    existsb (accepts (Class cls)) (runs ok p l) = reach ok cls l.
Proof.
  induction l as [|c rest IH]; intros p; simpl; [reflexivity|].
  unfold accepts at 1. destruct (ok c); simpl.
  - rewrite existsb_app, IH. simpl. unfold accepts, one; simpl.
    destruct (inClass cls c); simpl; [apply orb_true_r | apply orb_false_r].
  - unfold accepts, one; simpl. destruct (inClass cls c); reflexivity.
Qed.

Lemma runs_eol (ok : N -> bool) (l : jsstring) :
  forall p : nat, existsb (accepts Eol) (runs ok p l) = forallb ok l.
Proof.
  induction l as [|c rest IH]; intros p; simpl; [reflexivity|].
  destruct (ok c); simpl; [|reflexivity].
  rewrite existsb_app, IH. simpl. apply orb_false_r.
Qed.

Lemma reach_all (ok : N -> bool) (cls : list ClassItem) (l : jsstring) :
  forallb ok l = true -> reach ok cls l = existsb (inClass cls) l.
Proof.
  induction l as [|c rest IH]; simpl; [reflexivity|].
  intros [Hc Hrest]%andb_prop. rewrite Hc, IH by exact Hrest. reflexivity.
Qed.

Lemma matchR_lookahead (r : Regex) (st : State) :
  matchR (Lookahead r) st = if accepts r st then [st] else [].
Proof. unfold accepts. simpl. destruct (matchR r st); reflexivity. Qed.

Lemma accepts_seq (r1 r2 : Regex) (st : State) :
  accepts (Seq r1 r2) st = existsb (accepts r2) (matchR r1 st).
Proof. unfold accepts. simpl. apply nonempty_flat_map. Qed.

Lemma matchR_dot : matchR Dot = one notLT.
Proof. reflexivity. Qed.

Lemma matchR_star (r : Regex) (st : State) :
  matchR (Star r) st = iter (matchR r) (length (snd st)) st.
Proof. reflexivity. Qed.

Lemma matchR_atleast (n : nat) (r : Regex) (st : State) :
  matchR (AtLeast n r) st =
  flat_map (fun st' => iter (matchR r) (length (snd st')) st')
           (times (matchR r) n st).
Proof. reflexivity. Qed.

Lemma matchR_star_dot (p : nat) (l : jsstring) :
  matchR (Star Dot) (p, l) = runs notLT p l.
Proof.
  rewrite matchR_star, matchR_dot. apply iter_one_runs. simpl. lia.
Qed.

(** (?=.*[cls]) *)
Lemma accepts_lookahead (cls : list ClassItem) (r : Regex) (p : nat) (l : jsstring) :
  accepts (Seq (Lookahead (Seq (Star Dot) (Class cls))) r) (p, l) =
  reach notLT cls l && accepts r (p, l).
Proof.
  rewrite accepts_seq, matchR_lookahead, accepts_seq, matchR_star_dot.
  rewrite runs_reach. destruct (reach notLT cls l); simpl;
    [apply orb_false_r | reflexivity].
Qed.

(** .{n,}$ *)
Lemma accepts_tail (n : nat) (l : jsstring) :
  accepts (Seq (AtLeast n Dot) Eol) (O, l) =
  (n <=? length l)%nat && forallb notLT l.
Proof.
  rewrite accepts_seq, matchR_atleast, matchR_dot, times_one.
  destruct (n <=? length l)%nat eqn:Hn; cbn [andb]; [|reflexivity].
  destruct (forallb notLT (firstn n l)) eqn:Hpre; cbn [flat_map].
  - rewrite app_nil_r, iter_one_runs by (simpl; lia).
    rewrite runs_eol.
    rewrite <- (firstn_skipn n l) at 2. rewrite forallb_app, Hpre.
    reflexivity.
  - rewrite <- (firstn_skipn n l), forallb_app, Hpre. reflexivity.
Qed.

Lemma matchesAt_bol (r : Regex) (s : jsstring) (i : nat) :
  matchesAt (Seq Bol r) s (S i) = false.
Proof. reflexivity. Qed.

Lemma test_bol (r : Regex) (s : jsstring) :
  test (Seq Bol r) s = accepts r (O, s).
Proof.
  unfold test. simpl seq. cbn [existsb].
  replace (existsb (matchesAt (Seq Bol r) s) (seq 1 (length s))) with false.
  - unfold matchesAt, accepts. simpl. rewrite app_nil_r, orb_false_r.
    reflexivity.
  - symmetry. apply not_true_is_false. intros Hex.
    apply existsb_exists in Hex as [i [Hin Hi]].
    apply in_seq in Hin. destruct i as [|i]; [lia|].
    rewrite matchesAt_bol in Hi. discriminate.
Qed.

(** The pattern as a conjunction of five tests on the code units. *)
Lemma isValidPassword_bool (p : jsstring) :
  isValidPassword p =
  (8 <=? length p)%nat && forallb notLT p
  && existsb (inClass [CRange 97 122]) p
  && existsb (inClass [CRange 65 90]) p
  && existsb (inClass [CNotWord; CChar 95]) p.
Proof.
  unfold isValidPassword, passwordRegex, lowerClass, upperClass, specialClass.
  rewrite test_bol, !accepts_lookahead, accepts_tail.
  destruct (forallb notLT p) eqn:Hlt.
  - rewrite !reach_all by exact Hlt.
    destruct (8 <=? length p)%nat, (existsb (inClass [CRange 97 122]) p),
      (existsb (inClass [CRange 65 90]) p),
      (existsb (inClass [CNotWord; CChar 95]) p); reflexivity.
  - rewrite !andb_false_r. reflexivity.
Qed.



(** ** The password rule *)

(** The examples of section 8 of the specification. *)
Example isValidPassword_ok : isValidPassword (lit "Abcdefg!") = true.
Proof. reflexivity. Qed.
Example isValidPassword_no_upper : isValidPassword (lit "alllowercase1!") = false.
Proof. reflexivity. Qed.
Example isValidPassword_no_lower : isValidPassword (lit "ALLUPPER1!") = false.
Proof. reflexivity. Qed.
Example isValidPassword_no_special : isValidPassword (lit "NoSpecial123") = false.
Proof. reflexivity. Qed.
Example isValidPassword_short : isValidPassword (lit "Abcde!") = false.
Proof. reflexivity. Qed.
Example isValidPassword_newline :
  isValidPassword (lit "Abcdefg!" ++ [10%N]) = false.
Proof. reflexivity. Qed.

Lemma inClass_lower (c : N) : inClass [CRange 97 122] c = isLower c.
Proof. unfold inClass; simpl. apply orb_false_r. Qed.

Lemma inClass_upper (c : N) : inClass [CRange 65 90] c = isUpper c.
Proof. unfold inClass; simpl. apply orb_false_r. Qed.

Lemma inClass_special (c : N) : inClass [CNotWord; CChar 95] c = isSpecial c.
Proof.
  unfold inClass; simpl.
  unfold isSpecial, isWordChar, isLower, isUpper, isDigit.
  rewrite orb_false_r.
  destruct (N.eqb_spec c 95) as [->|Hne]; [reflexivity|].
  rewrite !orb_false_r. reflexivity.
Qed.

Lemma existsb_In (f : N -> bool) (p : jsstring) :
  existsb f p = true <-> exists c, In c p /\ f c = true.
Proof. apply existsb_exists. Qed.

(** C3, as the code has it: the validator accepts exactly the strings of
    at least 8 code units that contain no line terminator (LF, CR, U+2028,
    U+2029) and contain a lowercase letter a-z, an uppercase letter A-Z and
    a code unit that is neither an ASCII letter nor a digit; no maximum
    length is enforced. *)
Theorem isValidPassword_accepts_iff (p : jsstring) :
  isValidPassword p = true <->
  (8 <= length p)%nat /\
  (forall c, In c p -> isLineTerminator c = false) /\
  (exists c, In c p /\ isLower c = true) /\
  (exists c, In c p /\ isUpper c = true) /\
  (exists c, In c p /\ isSpecial c = true).
Proof.
  rewrite isValidPassword_bool, !andb_true_iff, !existsb_In.
  rewrite Nat.leb_le, forallb_forall.
  setoid_rewrite inClass_lower. setoid_rewrite inClass_upper.
  setoid_rewrite inClass_special.
  unfold notLT. setoid_rewrite negb_true_iff. tauto.
Qed.

(** C3, as stated, fails: a password that meets every condition of the
    stated rule and ends in a line feed is rejected, because [.] does not
    match a line terminator and [$] only matches at the very end. *)
Lemma isValidPassword_newline_counterexample :
  stated_password_rule newline_password /\
  isValidPassword newline_password = false /\
  ~ (isValidPassword newline_password = true <->
     stated_password_rule newline_password).
Proof.
  assert (Hrule : stated_password_rule newline_password).
  { unfold stated_password_rule, newline_password. simpl. split; [lia|].
    split; [exists 98%N | split; [exists 65%N | exists 33%N]];
      (split; [tauto | reflexivity]). }
  assert (Hrej : isValidPassword newline_password = false) by reflexivity.
  split; [exact Hrule | split; [exact Hrej |]].
  intros [_ Hback]. rewrite (Hback Hrule) in Hrej. discriminate.
Qed.

(** ** Running a handler step by step *)

Section AnyCollaborators.

Context {W : Type}.
Variable perform : forall c : Call, W -> Result (Answer c) * W.

Lemma exec_ret (r : Response) (h : Error -> Prog Response) (w : W) :
  exec perform (tryCatch (Ret r) h) w = answered r w.
Proof. reflexivity. Qed.

Lemma exec_throw (e : Error) (h : Error -> Prog Response) (w : W) :
  exec perform (tryCatch (Throw e) h) w = exec perform (h e) w.
Proof. reflexivity. Qed.

Lemma exec_await_ok {A : Type} (c : Call) (f : Answer c -> Prog A)
    (h : Error -> Prog A) (w w' : W) (x : Answer c) :
  perform c w = (Ok x, w') ->
  exec perform (tryCatch (await c ≫= f) h) w =
  after c (exec perform (tryCatch (f x) h) w').
Proof. intros Hc. cbn. rewrite Hc. reflexivity. Qed.

Lemma exec_await_rejected {A : Type} (c : Call) (f : Answer c -> Prog A)
    (h : Error -> Prog A) (w w' : W) (e : Error) :
  perform c w = (Rejected e, w') ->
  exec perform (tryCatch (await c ≫= f) h) w = after c (exec perform (h e) w').
Proof. intros Hc. cbn. rewrite Hc. reflexivity. Qed.

(** A handler catches whatever its body throws: it always answers. *)
Lemma exec_tryCatch_answers (p : Prog Response) (code : Z) :
  forall w : W,
    exists r, result (exec perform
      (tryCatch p (fun error => Ret (res code (ErrorBody (message error))))) w)
      = Ok r.
Proof.
  induction p as [r|e|c k IH]; intros w; cbn.
  - eauto.
  - eauto.
  - apply IH.
Qed.

(** *** createUser *)

Lemma createUser_missing (now : Z) (req : Request) (w : W) :
  (exists k, In k required /\ missing (body req) k) ->
  exec perform (createUser now req) w = answered (res 400 (Message allFieldsMessage)) w.
Proof.
  intros (k & Hk & Hmiss). unfold missing, required in *. unfold createUser.
  simpl in Hk.
  assert (Hcond :
    negb (truthy (prop (body req) "email"))
    || negb (truthy (prop (body req) "password"))
    || negb (truthy (prop (body req) "firstName"))
    || negb (truthy (prop (body req) "lastName"))
    || negb (truthy (prop (body req) "age")) = true).
  { destruct Hk as [<-|[<-|[<-|[<-|[<-|[]]]]]]; rewrite Hmiss; simpl;
      rewrite ?orb_true_r; reflexivity. }
  cbv zeta. rewrite Hcond. reflexivity.
Qed.

Lemma createUser_present (req : Request) :
  (forall k, In k required -> ~ missing (body req) k) ->
  negb (truthy (prop (body req) "email"))
  || negb (truthy (prop (body req) "password"))
  || negb (truthy (prop (body req) "firstName"))
  || negb (truthy (prop (body req) "lastName"))
  || negb (truthy (prop (body req) "age")) = false.
Proof.
  intros Hall. unfold missing, required in Hall.
  rewrite !orb_false_iff, !negb_false_iff.
  repeat split; apply not_false_is_true, Hall; simpl; tauto.
Qed.

Lemma createUser_weak (now : Z) (req : Request) (w : W) :
  (forall k, In k required -> ~ missing (body req) k) ->
  isValidPassword (toString (prop (body req) "password")) = false ->
  exec perform (createUser now req) w =
  answered (res 400 (Message weakPasswordMessage)) w.
Proof.
  intros Hall Hweak. unfold createUser. cbv zeta.
  rewrite (createUser_present req Hall).
  unfold isValidPassword in Hweak. rewrite Hweak. reflexivity.
Qed.

Lemma createUser_taken (now : Z) (req : Request) (w w1 : W) (existing : UserWithId) :
  (forall k, In k required -> ~ missing (body req) k) ->
  isValidPassword (toString (prop (body req) "password")) = true ->
  perform (findUserByEmailService (prop (body req) "email")) w = (Ok (Some existing), w1) ->
  exec perform (createUser now req) w =
  after (findUserByEmailService (prop (body req) "email"))
        (answered (res 400 (Message emailTakenMessage)) w1).
Proof.
  intros Hall Hstrong Hfind. unfold createUser. cbv zeta.
  rewrite (createUser_present req Hall).
  unfold isValidPassword in Hstrong. rewrite Hstrong. cbn [negb].
  rewrite (exec_await_ok _ _ _ _ _ _ Hfind). reflexivity.
Qed.

Lemma createUser_created (now : Z) (req : Request) (w w1 w2 : W) (newId : jsstring) :
  (forall k, In k required -> ~ missing (body req) k) ->
  isValidPassword (toString (prop (body req) "password")) = true ->
  perform (findUserByEmailService (prop (body req) "email")) w = (Ok None, w1) ->
  perform (createUserService (userDataOf now (body req))) w1 = (Ok newId, w2) ->
  exec perform (createUser now req) w =
  after (findUserByEmailService (prop (body req) "email"))
    (after (createUserService (userDataOf now (body req)))
       (answered (res 201 (Created newId createdMessage)) w2)).
Proof.
  intros Hall Hstrong Hfind Hcreate. unfold createUser. cbv zeta.
  rewrite (createUser_present req Hall).
  unfold isValidPassword in Hstrong. rewrite Hstrong. cbn [negb].
  rewrite (exec_await_ok _ _ _ _ _ _ Hfind).
  fold (userDataOf now (body req)).
  rewrite (exec_await_ok _ _ _ _ _ _ Hcreate). reflexivity.
Qed.

Lemma createUser_400_no_create (now : Z) (req : Request) (w : W) (r : Response) :
  result (exec perform (createUser now req) w) = Ok r ->
  status r = 400 ->
  existsb isCreate (calls (exec perform (createUser now req) w)) = false.
Proof.
  unfold createUser. cbv zeta.
  destruct (negb (truthy (prop (body req) "email")) || _ || _ || _ || _);
    [reflexivity|].
  destruct (negb (test passwordRegex (toString (prop (body req) "password"))));
    [reflexivity|].
  cbn.
  destruct (perform (findUserByEmailService (prop (body req) "email")) w)
    as [[[existing|]|e] w1]; cbn; try reflexivity.
  destruct (perform (createUserService _) w1) as [[newId|e] w2]; cbn;
    intros [= <-]; cbn; discriminate.
Qed.

(** C5: [createUser] checks in order.  A field is missing when the
    controller's test [!field] holds.
    - If one of firstName, lastName, age, email, password is missing, it
      answers 400 "Todos los campos son obligatorios" without calling
      anything.
    - Otherwise, if the password fails the policy, it answers 400 with the
      message that enumerates the rule, without calling anything.
    - Otherwise, if the store finds a record with the same email, it
      answers 400 "El correo ya está registrado" after that lookup alone.
    - Otherwise it hands the record to [createUserService] and answers 201
      with the identifier the store returns.
    - Whenever it answers 400, [createUserService] has not been called: no
      record is created on an error path. *)
Theorem createUser_checks_in_order (now : Z) (req : Request) (w : W) :
  let b := body req in
  let o := exec perform (createUser now req) w in
  let lookup := findUserByEmailService (prop b "email") in
  let create := createUserService (userDataOf now b) in
  ((exists k, In k required /\ missing b k) ->
     o = answered (res 400 (Message allFieldsMessage)) w) /\
  ((forall k, In k required -> ~ missing b k) ->
     (isValidPassword (toString (prop b "password")) = false ->
        o = answered (res 400 (Message weakPasswordMessage)) w) /\
     (isValidPassword (toString (prop b "password")) = true ->
        (forall existing w1,
           perform lookup w = (Ok (Some existing), w1) ->
           o = after lookup (answered (res 400 (Message emailTakenMessage)) w1)) /\
        (forall newId w1 w2,
           perform lookup w = (Ok None, w1) ->
           perform create w1 = (Ok newId, w2) ->
           o = after lookup (after create
                 (answered (res 201 (Created newId createdMessage)) w2))))) /\
  (forall r, result o = Ok r -> status r = 400 ->
     existsb isCreate (calls o) = false).
Proof.
  cbv zeta. split; [|split].
  - apply createUser_missing.
  - intros Hall. split; [apply createUser_weak; exact Hall|].
    intros Hstrong. split.
    + intros existing w1. apply createUser_taken; assumption.
    + intros newId w1 w2. apply createUser_created; assumption.
  - apply createUser_400_no_create.
Qed.

(** C10: a registration whose age is 0, or whose firstName, lastName,
    email or password is the empty string, is answered with the 400
    missing-fields error although the field is in the body: presence is
    decided by truthiness. *)
Theorem createUser_rejects_falsy_fields (now : Z) (req : Request) (w : W) :
  (body req !! "age" = Some (JNum 0) \/
   exists k, In k ["firstName"; "lastName"; "email"; "password"] /\
             body req !! k = Some (JStr [])) ->
  exec perform (createUser now req) w =
  answered (res 400 (Message allFieldsMessage)) w.
Proof.
  intros Hfalsy. apply createUser_missing. unfold missing, prop, required.
  destruct Hfalsy as [Hage | (k & Hk & Hempty)].
  - exists "age". rewrite Hage. split; [simpl; tauto | reflexivity].
  - exists k. rewrite Hempty. split; [simpl in *; tauto | reflexivity].
Qed.

(** *** loginUser *)

Lemma loginUser_present (req : Request) :
  ~ missing (body req) "email" -> ~ missing (body req) "password" ->
  negb (truthy (prop (body req) "email"))
  || negb (truthy (prop (body req) "password")) = false.
Proof.
  unfold missing. intros He Hp.
  apply not_false_is_true in He, Hp. rewrite He, Hp. reflexivity.
Qed.

Lemma loginUser_missing (env : gmap string jsstring) (req : Request) (w : W) :
  missing (body req) "email" \/ missing (body req) "password" ->
  exec perform (loginUser env req) w =
  answered (res 400 (Message credentialsRequiredMessage)) w.
Proof.
  unfold missing, loginUser. cbv zeta.
  intros [Hm|Hm]; rewrite Hm; cbn [negb orb]; rewrite ?orb_true_r; reflexivity.
Qed.

Lemma loginUser_not_found (env : gmap string jsstring) (req : Request) (w w1 : W) :
  ~ missing (body req) "email" -> ~ missing (body req) "password" ->
  perform (findUserByEmailService (prop (body req) "email")) w = (Ok None, w1) ->
  exec perform (loginUser env req) w =
  after (findUserByEmailService (prop (body req) "email"))
        (answered (res 401 (Message notFoundMessage)) w1).
Proof.
  intros He Hp Hfind. unfold loginUser. cbv zeta.
  rewrite (loginUser_present req He Hp).
  rewrite (exec_await_ok _ _ _ _ _ _ Hfind). reflexivity.
Qed.

Lemma loginUser_wrong_password (env : gmap string jsstring) (req : Request)
    (w w1 w2 : W) (u : UserWithId) :
  ~ missing (body req) "email" -> ~ missing (body req) "password" ->
  perform (findUserByEmailService (prop (body req) "email")) w = (Ok (Some u), w1) ->
  perform (bcrypt_compare (prop (body req) "password") (prop (fields u) "password")) w1
    = (Ok false, w2) ->
  exec perform (loginUser env req) w =
  after (findUserByEmailService (prop (body req) "email"))
    (after (bcrypt_compare (prop (body req) "password") (prop (fields u) "password"))
       (answered (res 401 (Message wrongPasswordMessage)) w2)).
Proof.
  intros He Hp Hfind Hcmp. unfold loginUser. cbv zeta.
  rewrite (loginUser_present req He Hp).
  rewrite (exec_await_ok _ _ _ _ _ _ Hfind).
  rewrite (exec_await_ok _ _ _ _ _ _ Hcmp). reflexivity.
Qed.

Lemma loginUser_no_secret (env : gmap string jsstring) (req : Request)
    (w w1 w2 : W) (u : UserWithId) :
  ~ missing (body req) "email" -> ~ missing (body req) "password" ->
  perform (findUserByEmailService (prop (body req) "email")) w = (Ok (Some u), w1) ->
  perform (bcrypt_compare (prop (body req) "password") (prop (fields u) "password")) w1
    = (Ok true, w2) ->
  envTruthy (env !! "JWT_SECRET") = false ->
  exec perform (loginUser env req) w =
  after (findUserByEmailService (prop (body req) "email"))
    (after (bcrypt_compare (prop (body req) "password") (prop (fields u) "password"))
       (answered (res 500 (ErrorBody noSecretMessage)) w2)).
Proof.
  intros He Hp Hfind Hcmp Hsecret. unfold loginUser. cbv zeta.
  rewrite (loginUser_present req He Hp).
  rewrite (exec_await_ok _ _ _ _ _ _ Hfind).
  rewrite (exec_await_ok _ _ _ _ _ _ Hcmp).
  rewrite Hsecret. reflexivity.
Qed.

Lemma loginUser_token (env : gmap string jsstring) (req : Request)
    (w w1 w2 w3 : W) (u : UserWithId) (token : jsstring) :
  ~ missing (body req) "email" -> ~ missing (body req) "password" ->
  perform (findUserByEmailService (prop (body req) "email")) w = (Ok (Some u), w1) ->
  perform (bcrypt_compare (prop (body req) "password") (prop (fields u) "password")) w1
    = (Ok true, w2) ->
  envTruthy (env !! "JWT_SECRET") = true ->
  perform (sign (id u) (prop (fields u) "email")
                (default [] (env !! "JWT_SECRET")) (expiresInOf env)) w2
    = (Ok token, w3) ->
  exec perform (loginUser env req) w =
  after (findUserByEmailService (prop (body req) "email"))
    (after (bcrypt_compare (prop (body req) "password") (prop (fields u) "password"))
       (after (sign (id u) (prop (fields u) "email")
                    (default [] (env !! "JWT_SECRET")) (expiresInOf env))
          (answered (res 200 (Token token)) w3))).
Proof.
  intros He Hp Hfind Hcmp Hsecret Hsign. unfold loginUser. cbv zeta.
  rewrite (loginUser_present req He Hp).
  rewrite (exec_await_ok _ _ _ _ _ _ Hfind).
  rewrite (exec_await_ok _ _ _ _ _ _ Hcmp).
  rewrite Hsecret. cbn [negb]. fold (expiresInOf env).
  rewrite (exec_await_ok _ _ _ _ _ _ Hsign). reflexivity.
Qed.

(** C6, as the code has it: [loginUser] answers 400 if email or password
    is missing; otherwise 401 if the store finds no record for the email;
    otherwise 401 if the password does not verify against the stored hash;
    otherwise, when JWT_SECRET is set and not empty, it signs a token that
    carries the record's identifier and email and answers 200 with it;
    when JWT_SECRET is not set or empty, it answers 500 instead. *)
Theorem loginUser_checks_in_order (env : gmap string jsstring) (req : Request) (w : W) :
  let b := body req in
  let o := exec perform (loginUser env req) w in
  let lookup := findUserByEmailService (prop b "email") in
  (missing b "email" \/ missing b "password" ->
     o = answered (res 400 (Message credentialsRequiredMessage)) w) /\
  (~ missing b "email" -> ~ missing b "password" ->
     (forall w1,
        perform lookup w = (Ok None, w1) ->
        o = after lookup (answered (res 401 (Message notFoundMessage)) w1)) /\
     (forall u w1,
        perform lookup w = (Ok (Some u), w1) ->
        let verify := bcrypt_compare (prop b "password") (prop (fields u) "password") in
        let issue := sign (id u) (prop (fields u) "email")
                          (default [] (env !! "JWT_SECRET")) (expiresInOf env) in
        (forall w2,
           perform verify w1 = (Ok false, w2) ->
           o = after lookup (after verify
                 (answered (res 401 (Message wrongPasswordMessage)) w2))) /\
        (forall w2,
           perform verify w1 = (Ok true, w2) ->
           (envTruthy (env !! "JWT_SECRET") = true ->
              forall token w3,
                perform issue w2 = (Ok token, w3) ->
                o = after lookup (after verify (after issue
                      (answered (res 200 (Token token)) w3)))) /\
           (envTruthy (env !! "JWT_SECRET") = false ->
              o = after lookup (after verify
                    (answered (res 500 (ErrorBody noSecretMessage)) w2)))))).
Proof.
  cbv zeta. split; [apply loginUser_missing|].
  intros He Hp. split.
  - intros w1. apply loginUser_not_found; assumption.
  - intros u w1 Hfind. split.
    + intros w2. eapply loginUser_wrong_password; eassumption.
    + intros w2 Hcmp. split.
      * intros Hsecret token w3. eapply loginUser_token; eassumption.
      * intros Hsecret. eapply loginUser_no_secret; eassumption.
Qed.

(** C2, as the code has it: for a login with email and password present,
    the answer when no record exists for the email and the answer when the
    record exists but the password does not match both have status 401,
    but their messages differ ("Usuario no encontrado" against "Contraseña
    incorrecta"), so the two responses are not the same. *)
Theorem loginUser_failures_differ (env : gmap string jsstring)
    (req1 req2 : Request) (wa wa1 wb wb1 wb2 : W) (u : UserWithId) :
  ~ missing (body req1) "email" -> ~ missing (body req1) "password" ->
  ~ missing (body req2) "email" -> ~ missing (body req2) "password" ->
  perform (findUserByEmailService (prop (body req1) "email")) wa = (Ok None, wa1) ->
  perform (findUserByEmailService (prop (body req2) "email")) wb = (Ok (Some u), wb1) ->
  perform (bcrypt_compare (prop (body req2) "password") (prop (fields u) "password")) wb1
    = (Ok false, wb2) ->
  exists r1 r2,
    result (exec perform (loginUser env req1) wa) = Ok r1 /\
    result (exec perform (loginUser env req2) wb) = Ok r2 /\
    status r1 = 401 /\ status r2 = 401 /\
    json r1 = Message notFoundMessage /\
    json r2 = Message wrongPasswordMessage /\
    r1 <> r2.
Proof.
  intros He1 Hp1 He2 Hp2 Hnone Hsome Hcmp.
  rewrite (loginUser_not_found env req1 wa wa1 He1 Hp1 Hnone).
  rewrite (loginUser_wrong_password env req2 wb wb1 wb2 u He2 Hp2 Hsome Hcmp).
  exists (res 401 (Message notFoundMessage)), (res 401 (Message wrongPasswordMessage)).
  repeat split; try reflexivity. discriminate.
Qed.

(** C4, as the code has it: the absence of the signing secret is found by
    [loginUser] while it serves a request.  For a login whose record is
    found and whose password verifies, when JWT_SECRET is not set or is
    empty the handler answers 500 with the error "JWT_SECRET no definido",
    and it has not called [sign]. *)
Theorem loginUser_missing_secret_is_500 (env : gmap string jsstring)
    (req : Request) (w w1 w2 : W) (u : UserWithId) :
  ~ missing (body req) "email" -> ~ missing (body req) "password" ->
  perform (findUserByEmailService (prop (body req) "email")) w = (Ok (Some u), w1) ->
  perform (bcrypt_compare (prop (body req) "password") (prop (fields u) "password")) w1
    = (Ok true, w2) ->
  envTruthy (env !! "JWT_SECRET") = false ->
  result (exec perform (loginUser env req) w)
    = Ok (res 500 (ErrorBody noSecretMessage)) /\
  existsb isSign (calls (exec perform (loginUser env req) w)) = false.
Proof.
  intros He Hp Hfind Hcmp Hsecret.
  rewrite (loginUser_no_secret env req w w1 w2 u He Hp Hfind Hcmp Hsecret).
  split; reflexivity.
Qed.

(** *** updateUser, deleteUser and getUsers *)

Lemma updateUser_no_identity (req : Request) (w : W) :
  user req = None ->
  exec perform (updateUser req) w = answered (res 401 (Message invalidTokenMessage)) w.
Proof. intros Hu. unfold updateUser. rewrite Hu. reflexivity. Qed.

Lemma deleteUser_no_identity (req : Request) (w : W) :
  user req = None ->
  exec perform (deleteUser req) w = answered (res 401 (Message invalidTokenMessage)) w.
Proof. intros Hu. unfold deleteUser. rewrite Hu. reflexivity. Qed.

(** The calls of an update: the hash of a truthy password, then the
    update of the record of the token, unless the hash threw. *)
Lemma updateUser_calls (req : Request) (w : W) (u : AuthUser) :
  user req = Some u ->
  let pw := prop (body req) "password" in
  let o := exec perform (updateUser req) w in
  (truthy pw = false /\ calls o = [updateUserService (uid u) (body req)]) \/
  (truthy pw = true /\
   ((exists e w1, perform (bcrypt_hash pw 10) w = (Rejected e, w1) /\
                  calls o = [bcrypt_hash pw 10]) \/
    (exists hashed w1, perform (bcrypt_hash pw 10) w = (Ok hashed, w1) /\
       calls o = [bcrypt_hash pw 10;
                  updateUserService (uid u) (<["password" := JStr hashed]> (body req))]))).
Proof.
  intros Hu. cbv zeta. unfold updateUser. rewrite Hu. cbv zeta.
  destruct (truthy (prop (body req) "password")) eqn:Hpw.
  - right. split; [reflexivity|]. cbn.
    destruct (perform (bcrypt_hash (prop (body req) "password") 10) w)
      as [[hashed|e] w1] eqn:Hhash; cbn.
    + right. exists hashed, w1. split; [reflexivity|].
      destruct (perform (updateUserService _ _) w1) as [[[]|e] w2]; reflexivity.
    + left. exists e, w1. split; reflexivity.
  - left. split; [reflexivity|]. cbn.
    destruct (perform (updateUserService _ _) w) as [[[]|e] w2]; reflexivity.
Qed.

Lemma deleteUser_calls (req : Request) (w : W) (u : AuthUser) :
  user req = Some u ->
  calls (exec perform (deleteUser req) w) = [deleteUserService (uid u)].
Proof.
  intros Hu. unfold deleteUser. rewrite Hu. cbn.
  destruct (perform (deleteUserService (uid u)) w) as [[[]|e] w1]; reflexivity.
Qed.

Lemma updateUser_targets (req : Request) (w : W) (u : AuthUser) :
  user req = Some u ->
  targets (calls (exec perform (updateUser req) w)) =
  if truthy (prop (body req) "password")
  then match fst (perform (bcrypt_hash (prop (body req) "password") 10) w) with
       | Ok _ => [uid u]
       | Rejected _ => []
       end
  else [uid u].
Proof.
  intros Hu.
  destruct (updateUser_calls req w u Hu)
    as [[Hpw ->] | [Hpw [(e & w1 & Hh & ->) | (hashed & w1 & Hh & ->)]]];
    rewrite Hpw, ?Hh; reflexivity.
Qed.

(** C8: an update or a delete targets the record whose identifier is the
    [uid] the verified token carries.  Every record an update or delete
    request touches is that one, and two requests with the same verified
    identity whose bodies agree on the password field (they may differ in
    every other field of the body, in the URL parameters, the query and
    the headers) target the same record. *)
Theorem mutation_target_is_token_uid (req1 req2 : Request) (w : W) :
  user req1 = user req2 ->
  prop (body req1) "password" = prop (body req2) "password" ->
  (forall t, In t (targets (calls (exec perform (updateUser req1) w))) ->
             exists u, user req1 = Some u /\ t = uid u) /\
  (forall t, In t (targets (calls (exec perform (deleteUser req1) w))) ->
             exists u, user req1 = Some u /\ t = uid u) /\
  targets (calls (exec perform (updateUser req1) w)) =
    targets (calls (exec perform (updateUser req2) w)) /\
  targets (calls (exec perform (deleteUser req1) w)) =
    targets (calls (exec perform (deleteUser req2) w)).
Proof.
  intros Huser Hpw. destruct (user req1) as [u|] eqn:Hu1.
  - symmetry in Huser.
    rewrite (updateUser_targets req1 w u Hu1), (updateUser_targets req2 w u Huser).
    rewrite (deleteUser_calls req1 w u Hu1), (deleteUser_calls req2 w u Huser).
    rewrite <- Hpw. repeat split.
    + intros t Ht. exists u. split; [reflexivity|].
      destruct (truthy (prop (body req1) "password"));
        [destruct (fst (perform _ w))|]; simpl in Ht; intuition.
    + intros t Ht. exists u. simpl in Ht. intuition.
  - symmetry in Huser.
    rewrite (updateUser_no_identity req1 w Hu1), (updateUser_no_identity req2 w Huser).
    rewrite (deleteUser_no_identity req1 w Hu1), (deleteUser_no_identity req2 w Huser).
    repeat split; intros t [].
Qed.

Lemma getUsers_never_401 (req : Request) (w : W) :
  answers401 (exec perform (getUsers req) w) = false.
Proof.
  unfold getUsers, answers401. cbn.
  destruct (perform getUsersService w) as [[users|e] w1]; reflexivity.
Qed.

Lemma updateUser_identity_never_401 (req : Request) (w : W) (u : AuthUser) :
  user req = Some u -> answers401 (exec perform (updateUser req) w) = false.
Proof.
  intros Hu. unfold updateUser, answers401. rewrite Hu. cbv zeta.
  destruct (truthy (prop (body req) "password")); cbn.
  - destruct (perform (bcrypt_hash _ _) w) as [[hashed|e] w1]; cbn;
      [|reflexivity].
    destruct (perform (updateUserService _ _) w1) as [[[]|e] w2]; reflexivity.
  - destruct (perform (updateUserService _ _) w) as [[[]|e] w2]; reflexivity.
Qed.

Lemma deleteUser_identity_never_401 (req : Request) (w : W) (u : AuthUser) :
  user req = Some u -> answers401 (exec perform (deleteUser req) w) = false.
Proof.
  intros Hu. unfold deleteUser, answers401. rewrite Hu. cbn.
  destruct (perform (deleteUserService (uid u)) w) as [[[]|e] w1]; reflexivity.
Qed.

Lemma protected_routes_gated (r : Route) :
  In r allRoutes -> existsb protected (chain r) = true -> gated r = true.
Proof.
  intros Hin Hprot.
  assert (Hall : forallb (fun r => implb (existsb protected (chain r)) (gated r))
                         allRoutes = true) by reflexivity.
  rewrite forallb_forall in Hall. specialize (Hall r Hin).
  rewrite Hprot in Hall. exact Hall.
Qed.

Lemma createUser_never_hashes (now : Z) (req : Request) (w : W) :
  existsb isHash (calls (exec perform (createUser now req) w)) = false.
Proof.
  unfold createUser. cbv zeta.
  destruct (negb (truthy (prop (body req) "email")) || _ || _ || _ || _);
    [reflexivity|].
  destruct (negb (test passwordRegex (toString (prop (body req) "password"))));
    [reflexivity|].
  cbn.
  destruct (perform (findUserByEmailService (prop (body req) "email")) w)
    as [[[existing|]|e] w1]; cbn; try reflexivity.
  destruct (perform (createUserService _) w1) as [[newId|e] w2]; reflexivity.
Qed.

End AnyCollaborators.

(** ** The handlers on the modelled store *)

(** The stand-in hasher verifies what it hashed, and nothing else. *)
Lemma uint_codes_digits (d : Decimal.uint) :
  forallb (inRange 48 57) (uint_codes d) = true.
Proof. induction d; simpl; auto. Qed.

Lemma dropDigits_salt (ds rest : jsstring) :
  forallb (inRange 48 57) ds = true ->
  dropDigits (ds ++ 36%N :: rest) = 36%N :: rest.
Proof.
  induction ds as [|c ds IH]; simpl; [reflexivity|].
  intros [Hc Hds]%andb_prop. rewrite Hc. apply IH, Hds.
Qed.

Lemma dropDigits_hash (salt : Z) (s : jsstring) :
  0 <= salt -> dropDigits (skipn 7 (bcryptHash salt s)) = 36%N :: s.
Proof.
  intros Hsalt. unfold bcryptHash. simpl skipn.
  apply dropDigits_salt. destruct salt as [|p|p]; [reflexivity| |lia].
  apply uint_codes_digits.
Qed.

Lemma bcryptVerify_hash (salt : Z) (s : jsstring) :
  0 <= salt -> bcryptVerify s (bcryptHash salt s) = true.
Proof.
  intros Hsalt. unfold bcryptVerify. rewrite dropDigits_hash by exact Hsalt.
  rewrite andb_true_iff. split; apply bool_decide_eq_true_2; reflexivity.
Qed.

Lemma bcryptVerify_other (salt : Z) (s s' : jsstring) :
  0 <= salt -> s <> s' -> bcryptVerify s' (bcryptHash salt s) = false.
Proof.
  intros Hsalt Hne. unfold bcryptVerify. rewrite dropDigits_hash by exact Hsalt.
  rewrite andb_false_iff. right. apply bool_decide_eq_false_2. congruence.
Qed.

(** On the modelled store, a registration that passes the three checks
    adds one record, and its password field is the submitted value. *)
Lemma createUser_persists_submitted_password (now : Z) (req : Request) (w : World) :
  (forall k, In k required -> ~ missing (body req) k) ->
  isValidPassword (toString (prop (body req) "password")) = true ->
  findByEmail (prop (body req) "email") (store w) = None ->
  store (world (exec services (createUser now req) w)) =
    store w ++ [(lit "user" ++ Z_codes (nextId w), docOf (userDataOf now (body req)))] /\
  docOf (userDataOf now (body req)) !! "password" = Some (prop (body req) "password").
Proof.
  intros Hall Hstrong Hfind. split.
  - rewrite (createUser_created services now req w w
               {| store := store w ++ [(lit "user" ++ Z_codes (nextId w),
                                        docOf (userDataOf now (body req)))];
                  nextId := nextId w + 1; hashes := hashes w |}
               (lit "user" ++ Z_codes (nextId w)) Hall Hstrong).
    + reflexivity.
    + simpl. rewrite Hfind. reflexivity.
    + reflexivity.
  - reflexivity.
Qed.

(** The data [updateUser] hands to the store carries the body's email
    as it is, whoever implements the store. *)
Lemma updateUser_passes_email {W : Type}
    (perform : forall c : Call, W -> Result (Answer c) * W)
    (req : Request) (w : W) (userId : jsstring) (data : gmap string JsValue) :
  In (updateUserService userId data) (calls (exec perform (updateUser req) w)) ->
  data !! "email" = body req !! "email".
Proof.
  destruct (user req) as [u|] eqn:Hu.
  - destruct (updateUser_calls perform req w u Hu)
      as [[_ ->] | [_ [(e & w1 & _ & ->) | (hashed & w1 & _ & ->)]]];
      simpl; intros Hin.
    + destruct Hin as [[= _ <-]|[]]. reflexivity.
    + destruct Hin as [[=]|[]].
    + destruct Hin as [[=]|[[= _ <-]|[]]]. apply lookup_insert_ne. discriminate.
  - rewrite (updateUser_no_identity perform req w Hu). intros [].
Qed.

(** C1 fails on the code: [createUser] never calls [bcrypt.hash], whatever
    the request and the collaborators, and on the registration of
    scenario 1 the record it has the store persist holds the submitted
    password "Abcdefg!" itself. *)
Theorem createUser_stores_plaintext :
  (forall (W : Type) (perform : forall c : Call, W -> Result (Answer c) * W)
          (now : Z) (req : Request) (w : W),
     existsb isHash (calls (exec perform (createUser now req) w)) = false) /\
  let o := exec services (createUser 0 (withBody registration)) emptyWorld in
  result o = Ok (res 201 (Created (lit "user1") createdMessage)) /\
  calls o = [findUserByEmailService (JStr (lit "a@b.com"));
             createUserService (userDataOf 0 registration)] /\
  password (userDataOf 0 registration) = JStr (lit "Abcdefg!") /\
  storedField (world o) (lit "user1") "password" = Some (JStr (lit "Abcdefg!")).
Proof.
  split; [intros; apply createUser_never_hashes|].
  cbv zeta. repeat split; vm_compute; reflexivity.
Qed.

(** ** The theorems at concrete requests *)

Ltac present :=
  let k := fresh "k" in
  let Hk := fresh "Hk" in
  let Hm := fresh "Hm" in
  intros k Hk; simpl in Hk; intros Hm;
  repeat (destruct Hk as [<-|Hk]; [vm_compute in Hm; discriminate Hm|]);
  destruct Hk.

Ltac not_missing :=
  let Hm := fresh "Hm" in
  intros Hm; vm_compute in Hm; discriminate Hm.

Lemma isValidPassword_accepts_iff_witness :
  isValidPassword (lit "Abcdefg!") = true.
Proof.
  apply (proj2 (isValidPassword_accepts_iff (lit "Abcdefg!"))).
  split; [simpl; lia|]. split.
  - intros c Hc. simpl in Hc.
    repeat (destruct Hc as [<-|Hc]; [reflexivity|]). destruct Hc.
  - split; [exists 98%N | split; [exists 65%N | exists 33%N]];
      (split; [simpl; tauto | reflexivity]).
Defined.

Lemma createUser_checks_in_order_witness :
  exec services (createUser 0 (withBody ∅)) emptyWorld =
    answered (res 400 (Message allFieldsMessage)) emptyWorld /\
  exec services (createUser 0 (withBody weakRegistration)) emptyWorld =
    answered (res 400 (Message weakPasswordMessage)) emptyWorld /\
  exec services (createUser 0 (withBody registration)) oneUserWorld =
    after (findUserByEmailService (prop registration "email"))
          (answered (res 400 (Message emailTakenMessage)) oneUserWorld) /\
  exec services (createUser 0 (withBody registration)) emptyWorld =
    after (findUserByEmailService (prop registration "email"))
      (after (createUserService (userDataOf 0 registration))
         (answered (res 201 (Created (lit "user1") createdMessage)) afterRegistration)).
Proof.
  split; [|split; [|split]].
  - apply (createUser_checks_in_order services 0 (withBody ∅) emptyWorld).
    exists "firstName". split; [simpl; tauto | reflexivity].
  - apply (createUser_checks_in_order services 0 (withBody weakRegistration) emptyWorld).
    + present.
    + vm_compute. reflexivity.
  - destruct (createUser_checks_in_order services 0 (withBody registration) oneUserWorld)
      as (_ & Hpresent & _).
    destruct Hpresent as [_ Hstrong]; [present|].
    destruct Hstrong as [Htaken _]; [vm_compute; reflexivity|].
    eapply Htaken. vm_compute. reflexivity.
  - destruct (createUser_checks_in_order services 0 (withBody registration) emptyWorld)
      as (_ & Hpresent & _).
    destruct Hpresent as [_ Hstrong]; [present|].
    destruct Hstrong as [_ Hcreated]; [vm_compute; reflexivity|].
    eapply Hcreated; vm_compute; reflexivity.
Defined.

Lemma createUser_rejects_falsy_fields_witness :
  exec services (createUser 0 (withBody (<["age" := JNum 0]> registration))) emptyWorld =
  answered (res 400 (Message allFieldsMessage)) emptyWorld.
Proof.
  apply (createUser_rejects_falsy_fields services 0
           (withBody (<["age" := JNum 0]> registration)) emptyWorld).
  left. vm_compute. reflexivity.
Defined.

Lemma loginUser_checks_in_order_witness :
  exec services (loginUser configured (withBody ∅)) oneUserWorld =
    answered (res 400 (Message credentialsRequiredMessage)) oneUserWorld /\
  result (exec services (loginUser configured unknownLogin) oneUserWorld) =
    Ok (res 401 (Message notFoundMessage)) /\
  result (exec services (loginUser configured wrongPasswordLogin) oneUserWorld) =
    Ok (res 401 (Message wrongPasswordMessage)) /\
  result (exec services (loginUser configured goodLogin) oneUserWorld) =
    Ok (res 200 (Token (issueToken (lit "user1") (JStr (lit "a@b.com"))
                                   (lit "s3cret") (lit "1h")))) /\
  result (exec services (loginUser ∅ goodLogin) oneUserWorld) =
    Ok (res 500 (ErrorBody noSecretMessage)).
Proof.
  split; [|split; [|split; [|split]]].
  - apply (loginUser_checks_in_order services configured (withBody ∅) oneUserWorld).
    left. reflexivity.
  - destruct (loginUser_checks_in_order services configured unknownLogin oneUserWorld)
      as (_ & Hpresent).
    destruct Hpresent as [Hnone _]; [not_missing | not_missing |].
    rewrite (Hnone oneUserWorld); [reflexivity | vm_compute; reflexivity].
  - destruct (loginUser_checks_in_order services configured wrongPasswordLogin oneUserWorld)
      as (_ & Hpresent).
    destruct Hpresent as [_ Hsome]; [not_missing | not_missing |].
    destruct (Hsome storedUser oneUserWorld) as [Hwrong _];
      [vm_compute; reflexivity|].
    rewrite (Hwrong oneUserWorld); [reflexivity | vm_compute; reflexivity].
  - destruct (loginUser_checks_in_order services configured goodLogin oneUserWorld)
      as (_ & Hpresent).
    destruct Hpresent as [_ Hsome]; [not_missing | not_missing |].
    destruct (Hsome storedUser oneUserWorld) as [_ Hright];
      [vm_compute; reflexivity|].
    destruct (Hright oneUserWorld) as [Htoken _]; [vm_compute; reflexivity|].
    rewrite (Htoken eq_refl (issueToken (lit "user1") (JStr (lit "a@b.com"))
                                        (lit "s3cret") (lit "1h")) oneUserWorld);
      [reflexivity | vm_compute; reflexivity].
  - destruct (loginUser_checks_in_order services ∅ goodLogin oneUserWorld)
      as (_ & Hpresent).
    destruct Hpresent as [_ Hsome]; [not_missing | not_missing |].
    destruct (Hsome storedUser oneUserWorld) as [_ Hright];
      [vm_compute; reflexivity|].
    destruct (Hright oneUserWorld) as [_ Hnosecret]; [vm_compute; reflexivity|].
    rewrite (Hnosecret eq_refl). reflexivity.
Defined.

Lemma loginUser_failures_differ_witness :
  exists r1 r2,
    result (exec services (loginUser configured unknownLogin) oneUserWorld) = Ok r1 /\
    result (exec services (loginUser configured wrongPasswordLogin) oneUserWorld) = Ok r2 /\
    status r1 = 401 /\ status r2 = 401 /\
    json r1 = Message notFoundMessage /\
    json r2 = Message wrongPasswordMessage /\
    r1 <> r2.
Proof.
  apply (loginUser_failures_differ services configured unknownLogin wrongPasswordLogin
           oneUserWorld oneUserWorld oneUserWorld oneUserWorld oneUserWorld storedUser);
    try not_missing; vm_compute; reflexivity.
Defined.

Lemma loginUser_missing_secret_is_500_witness :
  result (exec services (loginUser ∅ goodLogin) oneUserWorld)
    = Ok (res 500 (ErrorBody noSecretMessage)) /\
  existsb isSign (calls (exec services (loginUser ∅ goodLogin) oneUserWorld)) = false.
Proof.
  apply (loginUser_missing_secret_is_500 services ∅ goodLogin
           oneUserWorld oneUserWorld oneUserWorld storedUser);
    try not_missing; vm_compute; reflexivity.
Defined.

(** C2, as stated, fails: on a store that holds a@b.com, a login for an
    unknown email and a login for a@b.com with a wrong password are both
    answered 401, but with different bodies. *)
Lemma loginUser_failures_counterexample :
  let unknown := exec services (loginUser configured unknownLogin) oneUserWorld in
  let wrong := exec services (loginUser configured wrongPasswordLogin) oneUserWorld in
  findByEmail (prop (body unknownLogin) "email") (store oneUserWorld) = None /\
  findByEmail (prop (body wrongPasswordLogin) "email") (store oneUserWorld) = Some storedUser /\
  result unknown = Ok (res 401 (Message "Usuario no encontrado")) /\
  result wrong = Ok (res 401 (Message "Contraseña incorrecta")) /\
  result unknown <> result wrong.
Proof.
  cbv zeta. repeat split; try (vm_compute; reflexivity).
  intros Heq. vm_compute in Heq. discriminate Heq.
Qed.

(** C4, as stated, fails: with no JWT_SECRET in the environment the server
    still serves, and a login with valid credentials (the same request is
    answered 200 once the secret is set) is answered 500, caused by the
    missing secret. *)
Lemma loginUser_missing_secret_counterexample :
  (exists token,
     result (exec services (loginUser configured goodLogin) oneUserWorld)
       = Ok (res 200 (Token token))) /\
  result (exec services (loginUser ∅ goodLogin) oneUserWorld)
    = Ok (res 500 (ErrorBody "JWT_SECRET no definido")).
Proof.
  split; [eexists|]; vm_compute; reflexivity.
Qed.

(** C6, as stated, fails: the record exists and the password verifies,
    yet with an empty JWT_SECRET no token is issued and the answer is not
    200. *)
Lemma loginUser_no_token_counterexample :
  let o := exec services (loginUser emptySecret goodLogin) oneUserWorld in
  calls o = [findUserByEmailService (JStr (lit "a@b.com"));
             bcrypt_compare (JStr (lit "Abcdefg!"))
                            (JStr (bcryptHash 0 (lit "Abcdefg!")))] /\
  fst (services (findUserByEmailService (JStr (lit "a@b.com"))) oneUserWorld)
    = Ok (Some storedUser) /\
  fst (services (bcrypt_compare (JStr (lit "Abcdefg!"))
                                (JStr (bcryptHash 0 (lit "Abcdefg!")))) oneUserWorld)
    = Ok true /\
  result o = Ok (res 500 (ErrorBody "JWT_SECRET no definido")) /\
  (forall token, result o <> Ok (res 200 (Token token))).
Proof.
  cbv zeta. repeat split; try (vm_compute; reflexivity).
  intros token Heq. vm_compute in Heq. discriminate Heq.
Qed.

Lemma mutation_target_is_token_uid_witness :
  (forall t, In t (targets (calls (exec services (updateUser renameRequest) oneUserWorld))) ->
             exists u, user renameRequest = Some u /\ t = uid u) /\
  (forall t, In t (targets (calls (exec services (deleteUser renameRequest) oneUserWorld))) ->
             exists u, user renameRequest = Some u /\ t = uid u) /\
  targets (calls (exec services (updateUser renameRequest) oneUserWorld)) =
    targets (calls (exec services (updateUser spoofedRequest) oneUserWorld)) /\
  targets (calls (exec services (deleteUser renameRequest) oneUserWorld)) =
    targets (calls (exec services (deleteUser spoofedRequest) oneUserWorld)).
Proof.
  apply (mutation_target_is_token_uid services renameRequest spoofedRequest oneUserWorld).
  - reflexivity.
  - vm_compute. reflexivity.
Defined.

(** C9, as stated, fails: [updateUser] and [deleteUser] each perform a
    check of their own.  Handed a request without an identity they answer
    401 "Token inválido" themselves and call nothing. *)
Lemma handlers_own_check_counterexample :
  exec services (updateUser noRequest) oneUserWorld =
    answered (res 401 (Message "Token inválido")) oneUserWorld /\
  exec services (deleteUser noRequest) oneUserWorld =
    answered (res 401 (Message "Token inválido")) oneUserWorld /\
  answers401 (exec services (updateUser noRequest) oneUserWorld) = true /\
  answers401 (exec services (deleteUser noRequest) oneUserWorld) = true /\
  ~ (forall req w, answers401 (exec services (updateUser req) w) = false).
Proof.
  repeat split; try reflexivity.
  intros Hnever. specialize (Hnever noRequest oneUserWorld). discriminate Hnever.
Qed.

(** * Further properties of the code *)

(** ** The email validator *)

Lemma existsb_runs (ok : N -> bool) (f : State -> bool) (l : jsstring) :
  forall p : nat,
    existsb f (runs ok p l) = true <->
    exists pre rest, l = pre ++ rest /\ forallb ok pre = true /\
                     f ((p + length pre)%nat, rest) = true.
Proof.
  induction l as [|c t IH]; intros p; simpl.
  - rewrite orb_false_r. split.
    + intros Hf. exists [], []. simpl. rewrite Nat.add_0_r. auto.
    + intros (pre & rest & Heq & _ & Hf).
      symmetry in Heq. apply app_eq_nil in Heq as [-> ->].
      simpl in Hf. rewrite Nat.add_0_r in Hf. exact Hf.
  - destruct (ok c) eqn:Hc.
    + rewrite existsb_app, orb_true_iff, IH. simpl. rewrite orb_false_r. split.
      * intros [(pre & rest & -> & Hpre & Hf) | Hf].
        -- exists (c :: pre), rest. simpl. rewrite Hc, Hpre.
           rewrite Nat.add_succ_r. auto.
        -- exists [], (c :: t). simpl. rewrite Nat.add_0_r. auto.
      * intros (pre & rest & Heq & Hpre & Hf). destruct pre as [|c' pre].
        -- right. simpl in *. subst rest. rewrite Nat.add_0_r in Hf. exact Hf.
        -- left. simpl in Heq. injection Heq as <- ->.
           simpl in Hpre. apply andb_prop in Hpre as [_ Hpre].
           exists pre, rest. split; [reflexivity|]. split; [exact Hpre|].
           simpl in Hf. rewrite Nat.add_succ_r in Hf. exact Hf.
    + simpl. rewrite orb_false_r. split.
      * intros Hf. exists [], (c :: t). simpl. rewrite Nat.add_0_r. auto.
      * intros (pre & rest & Heq & Hpre & Hf). destruct pre as [|c' pre].
        -- simpl in *. subst rest. rewrite Nat.add_0_r in Hf. exact Hf.
        -- simpl in Heq. injection Heq as <- ->. simpl in Hpre.
           rewrite Hc in Hpre. discriminate.
Qed.

Lemma matchE_class (items : list EmailItem) :
  matchE (ENotClass items) = one (notInClass items).
Proof. reflexivity. Qed.

Lemma matchE_lit (c : N) : matchE (ELit c) = one (fun d => (d =? c)%N).
Proof. reflexivity. Qed.

Lemma matchE_plus (r : EmailRegex) (st : State) :
  matchE (EPlus r) st =
  flat_map (fun st' => iter (matchE r) (length (snd st')) st')
           (times (matchE r) 1 st).
Proof. reflexivity. Qed.

Lemma acceptsE_seq (r1 r2 : EmailRegex) (st : State) :
  acceptsE (ESeq r1 r2) st = existsb (acceptsE r2) (matchE r1 st).
Proof. unfold acceptsE. simpl. apply nonempty_flat_map. Qed.

(** One or more code units of the class, as many as a later part allows. *)
Lemma matchE_plus_class (items : list EmailItem) (p : nat) (l : jsstring) :
  matchE (EPlus (ENotClass items)) (p, l) =
  match l with
  | c :: rest => if notInClass items c then runs (notInClass items) (S p) rest else []
  | [] => []
  end.
Proof.
  rewrite matchE_plus, matchE_class. destruct l as [|c rest]; [reflexivity|].
  simpl. unfold one at 2. simpl.
  destruct (notInClass items c); [|reflexivity].
  simpl. rewrite app_nil_r. apply iter_one_runs. simpl. lia.
Qed.

Lemma acceptsE_plus_class (items : list EmailItem) (r : EmailRegex)
    (p : nat) (l : jsstring) :
  acceptsE (ESeq (EPlus (ENotClass items)) r) (p, l) = true <->
  exists pre rest, pre <> [] /\ l = pre ++ rest /\
                   forallb (notInClass items) pre = true /\
                   acceptsE r ((p + length pre)%nat, rest) = true.
Proof.
  rewrite acceptsE_seq, matchE_plus_class. destruct l as [|c t].
  - simpl. split; [discriminate|].
    intros (pre & rest & Hne & Heq & _). symmetry in Heq.
    apply app_eq_nil in Heq as [-> _]. contradiction.
  - destruct (notInClass items c) eqn:Hc.
    + rewrite existsb_runs. split.
      * intros (pre & rest & -> & Hpre & Hacc).
        exists (c :: pre), rest. split; [discriminate|]. split; [reflexivity|].
        simpl. rewrite Hc, Hpre.
        rewrite Nat.add_succ_r. auto.
      * intros (pre & rest & Hne & Heq & Hpre & Hacc).
        destruct pre as [|c' pre]; [contradiction|].
        simpl in Heq. injection Heq as <- ->. simpl in Hpre.
        apply andb_prop in Hpre as [_ Hpre]. exists pre, rest.
        split; [reflexivity|]. split; [exact Hpre|]. simpl in Hacc.
        rewrite Nat.add_succ_r in Hacc. exact Hacc.
    + simpl. split; [discriminate|].
      intros (pre & rest & Hne & Heq & Hpre & _).
      destruct pre as [|c' pre]; [contradiction|].
      simpl in Heq. injection Heq as <- ->. simpl in Hpre.
      rewrite Hc in Hpre. discriminate.
Qed.

Lemma acceptsE_lit (c : N) (r : EmailRegex) (p : nat) (l : jsstring) :
  acceptsE (ESeq (ELit c) r) (p, l) = true <->
  exists rest, l = c :: rest /\ acceptsE r (S p, rest) = true.
Proof.
  rewrite acceptsE_seq, matchE_lit. unfold one. simpl.
  destruct l as [|d rest]; simpl.
  - split; [discriminate | intros (rest & Heq & _); discriminate].
  - destruct (N.eqb_spec d c) as [->|Hne]; simpl.
    + rewrite orb_false_r. split.
      * intros Hacc. exists rest. auto.
      * intros (rest' & [= <-] & Hacc). exact Hacc.
    + split; [discriminate|]. intros (rest' & [= Hd _] & _). contradiction.
Qed.

Lemma acceptsE_eol (p : nat) (l : jsstring) :
  acceptsE EEol (p, l) = true <-> l = [].
Proof.
  unfold acceptsE. simpl. destruct l; simpl; split; congruence.
Qed.

Lemma testE_bol (r : EmailRegex) (s : jsstring) :
  testE (ESeq EBol r) s = acceptsE r (O, s).
Proof.
  unfold testE. simpl seq. cbn [existsb].
  replace (existsb (matchesAtE (ESeq EBol r) s) (seq 1 (length s))) with false.
  - unfold matchesAtE, acceptsE. simpl. rewrite app_nil_r, orb_false_r.
    reflexivity.
  - symmetry. apply not_true_is_false. intros Hex.
    apply existsb_exists in Hex as [i [Hin Hi]].
    apply in_seq in Hin. destruct i as [|i]; [lia|]. discriminate Hi.
Qed.

Lemma isValidEmail_parts (s : jsstring) :
  isValidEmail s = true <->
  exists a b c,
    s = a ++ 64%N :: b ++ 46%N :: c /\
    a <> [] /\ b <> [] /\ c <> [] /\
    forallb emailChar a = true /\ forallb emailChar b = true /\
    forallb emailChar c = true.
Proof.
  unfold isValidEmail, emailRegex, emailPart, emailChar.
  rewrite testE_bol, acceptsE_plus_class. split.
  - intros (a & r1 & Ha & -> & Hoka & Hacc).
    apply acceptsE_lit in Hacc as (r2 & -> & Hacc).
    apply acceptsE_plus_class in Hacc as (b & r3 & Hb & -> & Hokb & Hacc).
    apply acceptsE_lit in Hacc as (r4 & -> & Hacc).
    apply acceptsE_plus_class in Hacc as (c & r5 & Hc & -> & Hokc & Hacc).
    apply acceptsE_eol in Hacc as ->. rewrite app_nil_r.
    exists a, b, c. auto 10.
  - intros (a & b & c & -> & Ha & Hb & Hc & Hoka & Hokb & Hokc).
    exists a, (64%N :: b ++ 46%N :: c). repeat (split; [assumption || reflexivity|]).
    apply acceptsE_lit. exists (b ++ 46%N :: c). split; [reflexivity|].
    apply acceptsE_plus_class. exists b, (46%N :: c).
    repeat (split; [assumption || reflexivity|]).
    apply acceptsE_lit. exists c. split; [reflexivity|].
    apply acceptsE_plus_class. exists c, [].
    split; [exact Hc|]. split; [symmetry; apply app_nil_r|].
    split; [exact Hokc|]. apply acceptsE_eol. reflexivity.
Qed.

(** X1: [isValidEmail] accepts exactly the strings of the form
    local@domain.tail in which the three parts are not empty and hold
    neither white space nor another @ (the domain and the tail may hold
    further dots). *)
Theorem isValidEmail_accepts_iff (s : jsstring) :
  isValidEmail s = true <->
  exists a b c,
    s = a ++ 64%N :: b ++ 46%N :: c /\
    a <> [] /\ b <> [] /\ c <> [] /\
    forallb emailChar a = true /\ forallb emailChar b = true /\
    forallb emailChar c = true.
Proof. exact (isValidEmail_parts s). Qed.

Lemma emailChar_spec (c : N) :
  emailChar c = true -> c <> 64%N /\ isSpace c = false.
Proof.
  unfold emailChar, notInClass. simpl. rewrite orb_false_r, negb_true_iff.
  intros [Hs Hat]%orb_false_iff. split; [|exact Hs].
  apply N.eqb_neq. exact Hat.
Qed.

Lemma emailPart_no_at (l : jsstring) :
  forallb emailChar l = true -> count_occ N.eq_dec l 64%N = O.
Proof.
  intros Hall. apply count_occ_not_In. intros Hin.
  rewrite forallb_forall in Hall.
  destruct (emailChar_spec _ (Hall _ Hin)) as [Hne _]. contradiction.
Qed.

Lemma emailPart_no_space (l : jsstring) :
  forallb emailChar l = true -> forallb (fun c => negb (isSpace c)) l = true.
Proof.
  rewrite !forallb_forall. intros Hall c Hin.
  destruct (emailChar_spec _ (Hall _ Hin)) as [_ ->]. reflexivity.
Qed.

(** X2: a string [isValidEmail] accepts holds exactly one @, holds no
    white space or line terminator, and has at least five code units. *)
Theorem isValidEmail_one_at_no_space (s : jsstring) :
  isValidEmail s = true ->
  count_occ N.eq_dec s 64%N = 1%nat /\
  forallb (fun c => negb (isSpace c)) s = true /\
  (5 <= length s)%nat.
Proof.
  intros (a & b & c & -> & Ha & Hb & Hc & Hoka & Hokb & Hokc)%isValidEmail_parts.
  split; [|split].
  - rewrite count_occ_app, count_occ_cons_eq by reflexivity.
    rewrite count_occ_app, count_occ_cons_neq by discriminate.
    rewrite !emailPart_no_at by assumption. reflexivity.
  - rewrite forallb_app. simpl. rewrite forallb_app. simpl.
    rewrite !emailPart_no_space by assumption. reflexivity.
  - rewrite length_app. simpl. rewrite length_app. simpl.
    destruct a; [contradiction|]. destruct b; [contradiction|].
    destruct c; [contradiction|]. simpl. lia.
Qed.

(** ** The password validator *)

Lemma isSpecial_non_ascii (c : N) : (128 <= c)%N -> isSpecial c = true.
Proof.
  intros Hc. unfold isSpecial, isLower, isUpper, isDigit, inRange.
  rewrite negb_true_iff, !orb_false_iff, !andb_false_iff.
  repeat split; right; apply N.leb_gt; lia.
Qed.

(** X3: [isValidPassword] rejects every string of fewer than 8 code
    units, every string that holds a line terminator, and every string made
    of ASCII letters and digits only. *)
Theorem isValidPassword_rejects (p : jsstring) :
  (length p < 8)%nat \/
  (exists c, In c p /\ isLineTerminator c = true) \/
  (forall c, In c p -> isSpecial c = false) ->
  isValidPassword p = false.
Proof.
  rewrite isValidPassword_bool.
  intros [Hshort | [(c & Hin & Hlt) | Hplain]].
  - replace (8 <=? length p)%nat with false by (symmetry; apply Nat.leb_gt; lia).
    reflexivity.
  - replace (forallb notLT p) with false; [rewrite andb_false_r; reflexivity|].
    symmetry. apply not_true_is_false. intros Hall.
    rewrite forallb_forall in Hall. specialize (Hall c Hin).
    unfold notLT in Hall. rewrite Hlt in Hall. discriminate.
  - replace (existsb (inClass [CNotWord; CChar 95]) p) with false;
      [apply andb_false_r|].
    symmetry. apply not_true_is_false. intros Hex.
    apply existsb_exists in Hex as (c & Hin & Hc).
    rewrite inClass_special, (Hplain c Hin) in Hc. discriminate.
Qed.

(** X4: no maximum length.  An accepted password stays accepted when
    code units other than line terminators are put before or after it. *)
Theorem isValidPassword_extends (p q : jsstring) :
  isValidPassword p = true ->
  (forall c, In c q -> isLineTerminator c = false) ->
  isValidPassword (p ++ q) = true /\ isValidPassword (q ++ p) = true.
Proof.
  rewrite !isValidPassword_bool, !andb_true_iff.
  intros ((((Hlen & Hlt) & Hlow) & Hup) & Hsp) Hq.
  assert (Hqlt : forallb notLT q = true).
  { apply forallb_forall. intros c Hc. unfold notLT. rewrite (Hq c Hc). reflexivity. }
  apply Nat.leb_le in Hlen.
  rewrite !existsb_app, !forallb_app, !length_app, Hlt, Hqlt, Hlow, Hup, Hsp.
  rewrite !orb_true_r.
  repeat split; try reflexivity; apply Nat.leb_le; lia.
Qed.

(** X5: a code unit outside ASCII, such as an accented letter, counts as
    the special character: a string of at least 8 code units without line
    terminator that holds a-z, A-Z and a code unit from 128 on is
    accepted. *)
Theorem isValidPassword_non_ascii_special (p : jsstring) (c : N) :
  (8 <= length p)%nat ->
  (forall d, In d p -> isLineTerminator d = false) ->
  (exists d, In d p /\ isLower d = true) ->
  (exists d, In d p /\ isUpper d = true) ->
  In c p -> (128 <= c)%N ->
  isValidPassword p = true.
Proof.
  intros Hlen Hlt Hlow Hup Hin Hc.
  rewrite isValidPassword_bool, !andb_true_iff. repeat split.
  - apply Nat.leb_le. exact Hlen.
  - apply forallb_forall. intros d Hd. unfold notLT. rewrite (Hlt d Hd). reflexivity.
  - apply existsb_exists. destruct Hlow as (d & Hd & Hl). exists d.
    rewrite inClass_lower. auto.
  - apply existsb_exists. destruct Hup as (d & Hd & Hu). exists d.
    rewrite inClass_upper. auto.
  - apply existsb_exists. exists c. rewrite inClass_special.
    split; [exact Hin | apply isSpecial_non_ascii; exact Hc].
Qed.

Lemma digits_not_lower (l : jsstring) :
  forallb (inRange 48 57) l = true ->
  existsb (inClass [CRange 97 122]) l = false.
Proof.
  induction l as [|c l IH]; cbn [existsb forallb]; [reflexivity|].
  intros [Hc Hl]%andb_prop. rewrite (IH Hl), orb_false_r.
  rewrite inClass_lower. unfold isLower, inRange in *.
  apply andb_prop in Hc as [_ Hhi]. apply N.leb_le in Hhi.
  apply andb_false_iff. left. apply N.leb_gt. lia.
Qed.

(** A boolean or a safe integer never passes the policy: a safe integer
    prints as digits and a sign, and true and false hold no uppercase
    letter. *)
Lemma boolean_or_integer_fails_policy (v : JsValue) :
  (exists b, v = JBool b) \/ (exists n, v = JNum n /\ safeInteger n) ->
  isValidPassword (toString v) = false.
Proof.
  intros [[[|] ->] | (n & -> & _)]; try reflexivity.
  rewrite isValidPassword_bool.
  replace (existsb (inClass [CRange 97 122]) (toString (JNum n))) with false;
    [rewrite !andb_false_r; reflexivity|].
  symmetry. destruct n as [|q|q]; simpl; [reflexivity| |].
  - apply digits_not_lower, uint_codes_digits.
  - rewrite digits_not_lower by apply uint_codes_digits. reflexivity.
Qed.

(** ** The handlers, branch by branch *)

Section EveryCollaborator.

Context {W : Type}.
Variable perform : forall c : Call, W -> Result (Answer c) * W.

Lemma createUser_outcome (now : Z) (req : Request) (w : W) :
  let b := body req in
  let lookup := findUserByEmailService (prop b "email") in
  let create := createUserService (userDataOf now b) in
  exec perform (createUser now req) w =
  if negb (truthy (prop b "email")) || negb (truthy (prop b "password"))
     || negb (truthy (prop b "firstName")) || negb (truthy (prop b "lastName"))
     || negb (truthy (prop b "age"))
  then answered (res 400 (Message allFieldsMessage)) w
  else if negb (isValidPassword (toString (prop b "password")))
  then answered (res 400 (Message weakPasswordMessage)) w
  else match perform lookup w with
       | (Rejected e, w1) => after lookup (serverError e w1)
       | (Ok (Some _), w1) =>
           after lookup (answered (res 400 (Message emailTakenMessage)) w1)
       | (Ok None, w1) =>
           match perform create w1 with
           | (Rejected e, w2) => after lookup (after create (serverError e w2))
           | (Ok newId, w2) =>
               after lookup (after create
                 (answered (res 201 (Created newId createdMessage)) w2))
           end
       end.
Proof.
  cbv zeta. unfold createUser, isValidPassword. cbv zeta.
  destruct (negb (truthy (prop (body req) "email")) || _ || _ || _ || _);
    [reflexivity|].
  destruct (negb (test passwordRegex (toString (prop (body req) "password"))));
    [reflexivity|].
  destruct (perform (findUserByEmailService (prop (body req) "email")) w)
    as [[[existing|]|e] w1] eqn:Hfind.
  - rewrite (exec_await_ok perform _ _ _ _ _ _ Hfind). reflexivity.
  - rewrite (exec_await_ok perform _ _ _ _ _ _ Hfind).
    fold (userDataOf now (body req)).
    destruct (perform (createUserService (userDataOf now (body req))) w1)
      as [[newId|e] w2] eqn:Hcreate.
    + rewrite (exec_await_ok perform _ _ _ _ _ _ Hcreate). reflexivity.
    + rewrite (exec_await_rejected perform _ _ _ _ _ _ Hcreate). reflexivity.
  - rewrite (exec_await_rejected perform _ _ _ _ _ _ Hfind). reflexivity.
Qed.

Lemma loginUser_outcome (env : gmap string jsstring) (req : Request) (w : W) :
  let b := body req in
  let lookup := findUserByEmailService (prop b "email") in
  exec perform (loginUser env req) w =
  if negb (truthy (prop b "email")) || negb (truthy (prop b "password"))
  then answered (res 400 (Message credentialsRequiredMessage)) w
  else match perform lookup w with
       | (Rejected e, w1) => after lookup (serverError e w1)
       | (Ok None, w1) => after lookup (answered (res 401 (Message notFoundMessage)) w1)
       | (Ok (Some u), w1) =>
           let verify := bcrypt_compare (prop b "password") (prop (fields u) "password") in
           let issue := sign (id u) (prop (fields u) "email")
                             (default [] (env !! "JWT_SECRET")) (expiresInOf env) in
           match perform verify w1 with
           | (Rejected e, w2) => after lookup (after verify (serverError e w2))
           | (Ok false, w2) =>
               after lookup (after verify
                 (answered (res 401 (Message wrongPasswordMessage)) w2))
           | (Ok true, w2) =>
               if negb (envTruthy (env !! "JWT_SECRET"))
               then after lookup (after verify
                      (answered (res 500 (ErrorBody noSecretMessage)) w2))
               else match perform issue w2 with
                    | (Rejected e, w3) =>
                        after lookup (after verify (after issue (serverError e w3)))
                    | (Ok token, w3) =>
                        after lookup (after verify (after issue
                          (answered (res 200 (Token token)) w3)))
                    end
           end
       end.
Proof.
  cbv zeta. unfold loginUser. cbv zeta.
  destruct (negb (truthy (prop (body req) "email")) || _); [reflexivity|].
  destruct (perform (findUserByEmailService (prop (body req) "email")) w)
    as [[[u|]|e] w1] eqn:Hfind.
  - rewrite (exec_await_ok perform _ _ _ _ _ _ Hfind).
    destruct (perform (bcrypt_compare (prop (body req) "password")
                                      (prop (fields u) "password")) w1)
      as [[[|]|e] w2] eqn:Hcmp.
    + rewrite (exec_await_ok perform _ _ _ _ _ _ Hcmp). cbn [negb].
      destruct (negb (envTruthy (env !! "JWT_SECRET"))); [reflexivity|].
      fold (expiresInOf env).
      destruct (perform (sign (id u) (prop (fields u) "email")
                              (default [] (env !! "JWT_SECRET")) (expiresInOf env)) w2)
        as [[token|e] w3] eqn:Hsign.
      * rewrite (exec_await_ok perform _ _ _ _ _ _ Hsign). reflexivity.
      * rewrite (exec_await_rejected perform _ _ _ _ _ _ Hsign). reflexivity.
    + rewrite (exec_await_ok perform _ _ _ _ _ _ Hcmp). reflexivity.
    + rewrite (exec_await_rejected perform _ _ _ _ _ _ Hcmp). reflexivity.
  - rewrite (exec_await_ok perform _ _ _ _ _ _ Hfind). reflexivity.
  - rewrite (exec_await_rejected perform _ _ _ _ _ _ Hfind). reflexivity.
Qed.

Lemma updateUser_outcome (req : Request) (w : W) :
  let pw := prop (body req) "password" in
  let hash := bcrypt_hash pw 10 in
  exec perform (updateUser req) w =
  match user req with
  | None => answered (res 401 (Message invalidTokenMessage)) w
  | Some u =>
      let finish (data : gmap string JsValue) (w1 : W) :=
        let update := updateUserService (uid u) data in
        match perform update w1 with
        | (Rejected e, w2) => after update (serverError e w2)
        | (Ok _, w2) =>
            after update (answered (res 200 (Message "Usuario actualizado")) w2)
        end in
      if truthy pw
      then match perform hash w with
           | (Rejected e, w1) => after hash (serverError e w1)
           | (Ok hashed, w1) =>
               after hash (finish (<["password" := JStr hashed]> (body req)) w1)
           end
      else finish (body req) w
  end.
Proof.
  cbv zeta. unfold updateUser. destruct (user req) as [u|]; [|reflexivity].
  cbv zeta. destruct (truthy (prop (body req) "password")).
  - cbn. destruct (perform (bcrypt_hash (prop (body req) "password") 10) w)
      as [[hashed|e] w1]; cbn; [|reflexivity].
    destruct (perform (updateUserService (uid u) _) w1) as [[[]|e] w2]; reflexivity.
  - cbn. destruct (perform (updateUserService (uid u) (body req)) w)
      as [[[]|e] w2]; reflexivity.
Qed.

Lemma deleteUser_outcome (req : Request) (w : W) :
  exec perform (deleteUser req) w =
  match user req with
  | None => answered (res 401 (Message invalidTokenMessage)) w
  | Some u =>
      let delete := deleteUserService (uid u) in
      match perform delete w with
      | (Rejected e, w1) => after delete (serverError e w1)
      | (Ok _, w1) =>
          after delete (answered (res 200 (Message "Usuario eliminado correctamente")) w1)
      end
  end.
Proof.
  unfold deleteUser. destruct (user req) as [u|]; [|reflexivity].
  cbn. destruct (perform (deleteUserService (uid u)) w) as [[[]|e] w1]; reflexivity.
Qed.

Lemma getUsers_outcome (req : Request) (w : W) :
  exec perform (getUsers req) w =
  match perform getUsersService w with
  | (Rejected e, w1) => after getUsersService (serverError e w1)
  | (Ok users, w1) => after getUsersService (answered (res 200 (Users users)) w1)
  end.
Proof.
  unfold getUsers. cbn.
  destruct (perform getUsersService w) as [[users|e] w1]; reflexivity.
Qed.

(** *** createUser *)

Lemma createUser_present_inv (b : gmap string JsValue) :
  negb (truthy (prop b "email")) || negb (truthy (prop b "password"))
  || negb (truthy (prop b "firstName")) || negb (truthy (prop b "lastName"))
  || negb (truthy (prop b "age")) = false ->
  forall k, In k required -> ~ missing b k.
Proof.
  rewrite !orb_false_iff, !negb_false_iff.
  intros ((((He & Hp) & Hf) & Hl) & Ha) k Hk Hm. unfold missing in Hm.
  simpl in Hk. destruct Hk as [<-|[<-|[<-|[<-|[<-|[]]]]]]; congruence.
Qed.

(** X6: a registration whose password is a boolean or a safe integer
    (below 2^53 in magnitude) never passes the policy: with every field
    present it is answered 400 with the weak-password message and nothing
    is called. *)
Theorem createUser_boolean_or_integer_password (now : Z) (req : Request) (w : W) :
  (forall k, In k required -> ~ missing (body req) k) ->
  (exists b, prop (body req) "password" = JBool b) \/
  (exists n, prop (body req) "password" = JNum n /\ safeInteger n) ->
  exec perform (createUser now req) w =
  answered (res 400 (Message weakPasswordMessage)) w.
Proof.
  intros Hall Hpw. apply createUser_weak; [exact Hall|].
  apply boolean_or_integer_fails_policy. exact Hpw.
Qed.

(** X7: [createUser] does not look at the format of the email.  A
    registration whose email [isValidEmail] rejects is created like any
    other, and the email reaches the store as it was sent. *)
Theorem createUser_ignores_email_format (now : Z) (req : Request)
    (w w1 w2 : W) (newId : jsstring) :
  (forall k, In k required -> ~ missing (body req) k) ->
  isValidPassword (toString (prop (body req) "password")) = true ->
  isValidEmail (toString (prop (body req) "email")) = false ->
  perform (findUserByEmailService (prop (body req) "email")) w = (Ok None, w1) ->
  perform (createUserService (userDataOf now (body req))) w1 = (Ok newId, w2) ->
  exec perform (createUser now req) w =
    after (findUserByEmailService (prop (body req) "email"))
      (after (createUserService (userDataOf now (body req)))
         (answered (res 201 (Created newId createdMessage)) w2)) /\
  email (userDataOf now (body req)) = prop (body req) "email".
Proof.
  intros Hall Hstrong _ Hfind Hcreate. split; [|reflexivity].
  eapply createUser_created; eassumption.
Qed.

(** X8: [createUserService] is called only when every field is present,
    the password passes the policy and the lookup found no record for the
    email; the record it is given holds the five fields of the body and
    the time of the request. *)
Theorem createUser_creates_only_after_checks (now : Z) (req : Request) (w : W)
    (u : User) :
  In (createUserService u) (calls (exec perform (createUser now req) w)) ->
  u = userDataOf now (body req) /\
  (forall k, In k required -> ~ missing (body req) k) /\
  isValidPassword (toString (prop (body req) "password")) = true /\
  exists w1,
    perform (findUserByEmailService (prop (body req) "email")) w = (Ok None, w1).
Proof.
  rewrite createUser_outcome. cbv zeta.
  destruct (negb (truthy (prop (body req) "email")) || _ || _ || _ || _) eqn:Hc;
    [intros []|].
  destruct (isValidPassword (toString (prop (body req) "password"))) eqn:Hv;
    [|intros []].
  cbn [negb].
  destruct (perform (findUserByEmailService (prop (body req) "email")) w)
    as [[[existing|]|e] w1] eqn:Hfind.
  - simpl. intros [[=]|[]].
  - assert (Hin : forall o : Outcome W Response,
              calls o = [] ->
              In (createUserService u)
                 (calls (after (findUserByEmailService (prop (body req) "email"))
                           (after (createUserService (userDataOf now (body req))) o))) ->
              u = userDataOf now (body req)).
    { intros o Ho. simpl. rewrite Ho. intros [[=]|[[= ->]|[]]]. reflexivity. }
    intros Hcall. split.
    + destruct (perform (createUserService (userDataOf now (body req))) w1)
        as [[newId|e] w2]; eapply Hin; try exact Hcall; reflexivity.
    + split; [apply createUser_present_inv; exact Hc|].
      split; [reflexivity | exists w1; reflexivity].
  - simpl. intros [[=]|[]].
Qed.

(** X9: when the store fails, [createUser] answers 500 with the message
    of the error.  If the lookup fails, [createUserService] is not
    called. *)
Theorem createUser_store_failure (now : Z) (req : Request) (w w1 : W) (e : Error) :
  (forall k, In k required -> ~ missing (body req) k) ->
  isValidPassword (toString (prop (body req) "password")) = true ->
  let lookup := findUserByEmailService (prop (body req) "email") in
  let create := createUserService (userDataOf now (body req)) in
  (perform lookup w = (Rejected e, w1) ->
     exec perform (createUser now req) w = after lookup (serverError e w1)) /\
  (forall w2,
     perform lookup w = (Ok None, w1) ->
     perform create w1 = (Rejected e, w2) ->
     exec perform (createUser now req) w =
     after lookup (after create (serverError e w2))).
Proof.
  intros Hall Hstrong. cbv zeta. rewrite createUser_outcome. cbv zeta.
  rewrite (createUser_present req Hall), Hstrong. cbn [negb]. split.
  - intros ->. reflexivity.
  - intros w2 -> ->. reflexivity.
Qed.

(** *** loginUser *)

Lemma loginUser_present_inv (b : gmap string JsValue) :
  negb (truthy (prop b "email")) || negb (truthy (prop b "password")) = false ->
  ~ missing b "email" /\ ~ missing b "password".
Proof.
  rewrite orb_false_iff, !negb_false_iff. unfold missing.
  intros [He Hp]. split; congruence.
Qed.

(** X10: a token is only issued for verified credentials.  When
    [loginUser] answers 200, email and password were present, the store
    found a record for the email, bcrypt.compare of the password with the
    stored one answered true, JWT_SECRET was set, and the token in the
    answer is the one [sign] returned for the identifier and email of the
    stored record. *)
Theorem loginUser_token_only_for_verified (env : gmap string jsstring)
    (req : Request) (w : W) (r : Response) :
  result (exec perform (loginUser env req) w) = Ok r ->
  status r = 200 ->
  ~ missing (body req) "email" /\ ~ missing (body req) "password" /\
  envTruthy (env !! "JWT_SECRET") = true /\
  exists u w1 w2 w3 token,
    perform (findUserByEmailService (prop (body req) "email")) w = (Ok (Some u), w1) /\
    perform (bcrypt_compare (prop (body req) "password") (prop (fields u) "password")) w1
      = (Ok true, w2) /\
    perform (sign (id u) (prop (fields u) "email")
                  (default [] (env !! "JWT_SECRET")) (expiresInOf env)) w2
      = (Ok token, w3) /\
    r = res 200 (Token token).
Proof.
  rewrite loginUser_outcome. cbv zeta.
  destruct (negb (truthy (prop (body req) "email")) || _) eqn:Hc;
    [simpl; intros [= <-]; discriminate|].
  apply loginUser_present_inv in Hc as [He Hp].
  destruct (perform (findUserByEmailService (prop (body req) "email")) w)
    as [[[u|]|e] w1] eqn:Hfind;
    [|simpl; intros [= <-]; discriminate..].
  destruct (perform (bcrypt_compare _ _) w1) as [[[|]|e] w2] eqn:Hcmp;
    [|simpl; intros [= <-]; discriminate..].
  destruct (envTruthy (env !! "JWT_SECRET")) eqn:Hsecret;
    [|simpl; intros [= <-]; discriminate].
  cbn [negb].
  destruct (perform (sign _ _ _ _) w2) as [[token|e] w3] eqn:Hsign;
    [|simpl; intros [= <-]; discriminate].
  simpl. intros [= <-] _. repeat (split; [assumption || reflexivity|]).
  exists u, w1, w2, w3, token. auto.
Qed.

(** X11: when a collaborator fails, [loginUser] answers 500 with the
    message of the error: the lookup, bcrypt.compare (which rejects a
    password that is not a string) or [sign]. *)
Theorem loginUser_collaborator_failure (env : gmap string jsstring)
    (req : Request) (w w1 : W) (e : Error) :
  ~ missing (body req) "email" -> ~ missing (body req) "password" ->
  let lookup := findUserByEmailService (prop (body req) "email") in
  (perform lookup w = (Rejected e, w1) ->
     exec perform (loginUser env req) w = after lookup (serverError e w1)) /\
  (forall u w2,
     perform lookup w = (Ok (Some u), w1) ->
     let verify := bcrypt_compare (prop (body req) "password") (prop (fields u) "password") in
     let issue := sign (id u) (prop (fields u) "email")
                       (default [] (env !! "JWT_SECRET")) (expiresInOf env) in
     (perform verify w1 = (Rejected e, w2) ->
        exec perform (loginUser env req) w =
        after lookup (after verify (serverError e w2))) /\
     (forall w3,
        perform verify w1 = (Ok true, w2) ->
        envTruthy (env !! "JWT_SECRET") = true ->
        perform issue w2 = (Rejected e, w3) ->
        exec perform (loginUser env req) w =
        after lookup (after verify (after issue (serverError e w3))))).
Proof.
  intros He Hp. cbv zeta. rewrite loginUser_outcome. cbv zeta.
  rewrite (loginUser_present req He Hp). split.
  - intros ->. reflexivity.
  - intros u w2 ->. split.
    + intros ->. reflexivity.
    + intros w3 -> -> ->. reflexivity.
Qed.

(** *** updateUser *)

(** X12: [updateUser] applies no password policy.  Every non-empty
    string password, whatever [isValidPassword] says of it, is hashed with
    cost 10; the store receives the body with the password replaced by the
    hash, never the plaintext, and the answer is 200. *)
Theorem updateUser_hashes_any_password (req : Request) (w w1 w2 : W)
    (u : AuthUser) (s hashed : jsstring) :
  user req = Some u ->
  body req !! "password" = Some (JStr s) -> s <> [] ->
  perform (bcrypt_hash (JStr s) 10) w = (Ok hashed, w1) ->
  perform (updateUserService (uid u) (<["password" := JStr hashed]> (body req))) w1
    = (Ok tt, w2) ->
  exec perform (updateUser req) w =
    after (bcrypt_hash (JStr s) 10)
      (after (updateUserService (uid u) (<["password" := JStr hashed]> (body req)))
         (answered (res 200 (Message "Usuario actualizado")) w2)) /\
  (<["password" := JStr hashed]> (body req)) !! "password" = Some (JStr hashed) /\
  (forall k, k <> "password" ->
     (<["password" := JStr hashed]> (body req)) !! k = body req !! k).
Proof.
  intros Hu Hpw Hs Hhash Hupdate. split; [|split].
  - rewrite updateUser_outcome, Hu. cbv zeta. unfold prop. rewrite Hpw. simpl default.
    replace (truthy (JStr s)) with true by (destruct s; [contradiction | reflexivity]).
    rewrite Hhash, Hupdate. reflexivity.
  - apply lookup_insert_eq.
  - intros k Hk. apply lookup_insert_ne. congruence.
Qed.

(** X13: a falsy password in the body of an update (the empty string, 0,
    null, false, or none) is not hashed: the body is handed to the store
    as it is, with no call to bcrypt. *)
Theorem updateUser_falsy_password_unhashed (req : Request) (w w1 : W) (u : AuthUser) :
  user req = Some u ->
  truthy (prop (body req) "password") = false ->
  perform (updateUserService (uid u) (body req)) w = (Ok tt, w1) ->
  exec perform (updateUser req) w =
  after (updateUserService (uid u) (body req))
        (answered (res 200 (Message "Usuario actualizado")) w1).
Proof.
  intros Hu Hpw Hupdate. rewrite updateUser_outcome, Hu. cbv zeta.
  rewrite Hpw, Hupdate. reflexivity.
Qed.

(** X14: when bcrypt.hash fails (it rejects a truthy password that is not
    a string), [updateUser] answers 500 with the message of the error and
    the store is not called; when the store fails, after the password was
    hashed or with a body that needed no hashing, it answers 500 with the
    message of that error. *)
Theorem updateUser_failure (req : Request) (w w1 : W) (u : AuthUser) (e : Error) :
  user req = Some u ->
  let pw := prop (body req) "password" in
  (truthy pw = true ->
   perform (bcrypt_hash pw 10) w = (Rejected e, w1) ->
   exec perform (updateUser req) w = after (bcrypt_hash pw 10) (serverError e w1) /\
   existsb isUpdate (calls (exec perform (updateUser req) w)) = false) /\
  (truthy pw = false ->
   perform (updateUserService (uid u) (body req)) w = (Rejected e, w1) ->
   exec perform (updateUser req) w =
   after (updateUserService (uid u) (body req)) (serverError e w1)) /\
  (forall hashed w2,
   truthy pw = true ->
   perform (bcrypt_hash pw 10) w = (Ok hashed, w1) ->
   perform (updateUserService (uid u) (<["password" := JStr hashed]> (body req))) w1
     = (Rejected e, w2) ->
   exec perform (updateUser req) w =
   after (bcrypt_hash pw 10)
     (after (updateUserService (uid u) (<["password" := JStr hashed]> (body req)))
        (serverError e w2))).
Proof.
  intros Hu. cbv zeta. rewrite updateUser_outcome, Hu. cbv zeta. split; [|split].
  - intros -> ->. split; reflexivity.
  - intros -> ->. reflexivity.
  - intros hashed w2 -> -> ->. reflexivity.
Qed.

(** *** deleteUser and getUsers *)

(** X15: [deleteUser] reads nothing of the request but the identity: two
    requests with the same identity have the same outcome whatever their
    bodies, parameters, queries and headers.  With an identity it calls
    [deleteUserService] once, for the [uid] of the identity, and answers
    200, or 500 with the message of the error when the store fails. *)
Theorem deleteUser_reads_identity_only (req1 req2 : Request) (w : W) :
  user req1 = user req2 ->
  exec perform (deleteUser req1) w = exec perform (deleteUser req2) w /\
  (forall u, user req1 = Some u ->
     let delete := deleteUserService (uid u) in
     (forall w1, perform delete w = (Ok tt, w1) ->
        exec perform (deleteUser req1) w =
        after delete (answered (res 200 (Message "Usuario eliminado correctamente")) w1)) /\
     (forall e w1, perform delete w = (Rejected e, w1) ->
        exec perform (deleteUser req1) w = after delete (serverError e w1))).
Proof.
  intros Huser. rewrite !deleteUser_outcome, <- Huser. split; [reflexivity|].
  intros u ->. cbv zeta. split.
  - intros w1 ->. reflexivity.
  - intros e w1 ->. reflexivity.
Qed.

(** X16: [getUsers] has no guard of its own and reads nothing of the
    request: with or without an identity it answers 200 with the list the
    store returns, every field of every record included, or 500 with the
    message of the error when the store fails. *)
Theorem getUsers_returns_store_list (req : Request) (w : W) :
  (forall users w1,
     perform getUsersService w = (Ok users, w1) ->
     exec perform (getUsers req) w =
     after getUsersService (answered (res 200 (Users users)) w1)) /\
  (forall e w1,
     perform getUsersService w = (Rejected e, w1) ->
     exec perform (getUsers req) w = after getUsersService (serverError e w1)) /\
  (forall req', exec perform (getUsers req') w = exec perform (getUsers req) w).
Proof.
  rewrite getUsers_outcome. split; [|split].
  - intros users w1 ->. reflexivity.
  - intros e w1 ->. reflexivity.
  - intros req'. rewrite getUsers_outcome. reflexivity.
Qed.

(** *** All handlers *)

(** X17: the status codes of the handlers.  Whenever a handler sends an
    answer, its status is 201, 400 or 500 for [createUser]; 200, 400, 401
    or 500 for [loginUser]; 200, 401 or 500 for [updateUser] and
    [deleteUser]; 200 or 500 for [getUsers]. *)
Theorem handlers_status_codes (now : Z) (env : gmap string jsstring)
    (req : Request) (w : W) (code : Z) :
  (statusOf (exec perform (createUser now req) w) = Some code ->
     code = 201 \/ code = 400 \/ code = 500) /\
  (statusOf (exec perform (loginUser env req) w) = Some code ->
     code = 200 \/ code = 400 \/ code = 401 \/ code = 500) /\
  (statusOf (exec perform (updateUser req) w) = Some code ->
     code = 200 \/ code = 401 \/ code = 500) /\
  (statusOf (exec perform (deleteUser req) w) = Some code ->
     code = 200 \/ code = 401 \/ code = 500) /\
  (statusOf (exec perform (getUsers req) w) = Some code ->
     code = 200 \/ code = 500).
Proof.
  rewrite createUser_outcome, loginUser_outcome, updateUser_outcome,
    deleteUser_outcome, getUsers_outcome. cbv zeta.
  split; [|split; [|split; [|split]]].
  - destruct (negb (truthy (prop (body req) "email")) || _ || _ || _ || _);
      [intros [= <-]; tauto|].
    destruct (negb (isValidPassword _)); [intros [= <-]; tauto|].
    destruct (perform (findUserByEmailService _) w) as [[[existing|]|e] w1];
      try (intros [= <-]; tauto).
    destruct (perform (createUserService _) w1) as [[newId|e] w2];
      intros [= <-]; tauto.
  - destruct (negb (truthy (prop (body req) "email")) || _);
      [intros [= <-]; tauto|].
    destruct (perform (findUserByEmailService _) w) as [[[u|]|e] w1];
      try (intros [= <-]; tauto).
    destruct (perform (bcrypt_compare _ _) w1) as [[[|]|e] w2];
      try (intros [= <-]; tauto).
    destruct (negb (envTruthy _)); [intros [= <-]; tauto|].
    destruct (perform (sign _ _ _ _) w2) as [[token|e] w3];
      intros [= <-]; tauto.
  - destruct (user req) as [u|]; [|intros [= <-]; tauto].
    destruct (truthy (prop (body req) "password")).
    + destruct (perform (bcrypt_hash _ _) w) as [[hashed|e] w1];
        [|intros [= <-]; tauto].
      destruct (perform (updateUserService _ _) w1) as [[[]|e] w2];
        intros [= <-]; tauto.
    + destruct (perform (updateUserService _ _) w) as [[[]|e] w2];
        intros [= <-]; tauto.
  - destruct (user req) as [u|]; [|intros [= <-]; tauto].
    destruct (perform (deleteUserService _) w) as [[[]|e] w1];
      intros [= <-]; tauto.
  - destruct (perform getUsersService w) as [[users|e] w1];
      intros [= <-]; tauto.
Qed.

(** X18: what each handler may call.  [createUser] only looks an email up
    and creates; [loginUser] only looks up, compares and signs, so it
    never writes to the store; [updateUser] only hashes and updates;
    [deleteUser] only deletes; [getUsers] only lists.  No handler makes
    more than three calls. *)
Theorem handlers_call_footprint (now : Z) (env : gmap string jsstring)
    (req : Request) (w : W) :
  forallb createUserCall (calls (exec perform (createUser now req) w)) = true /\
  forallb loginUserCall (calls (exec perform (loginUser env req) w)) = true /\
  forallb updateUserCall (calls (exec perform (updateUser req) w)) = true /\
  forallb isDelete (calls (exec perform (deleteUser req) w)) = true /\
  forallb isList (calls (exec perform (getUsers req) w)) = true /\
  (length (calls (exec perform (createUser now req) w)) <= 2)%nat /\
  (length (calls (exec perform (loginUser env req) w)) <= 3)%nat /\
  (length (calls (exec perform (updateUser req) w)) <= 2)%nat.
Proof.
  assert (Hcreate :
    forallb createUserCall (calls (exec perform (createUser now req) w)) = true /\
    (length (calls (exec perform (createUser now req) w)) <= 2)%nat).
  { rewrite createUser_outcome. cbv zeta.
    destruct (negb (truthy (prop (body req) "email")) || _ || _ || _ || _);
      [simpl; split; [reflexivity | lia]|].
    destruct (negb (isValidPassword _)); [simpl; split; [reflexivity | lia]|].
    destruct (perform (findUserByEmailService _) w) as [[[existing|]|e] w1];
      try (simpl; split; [reflexivity | lia]).
    destruct (perform (createUserService _) w1) as [[newId|e] w2];
      simpl; (split; [reflexivity | lia]). }
  assert (Hlogin :
    forallb loginUserCall (calls (exec perform (loginUser env req) w)) = true /\
    (length (calls (exec perform (loginUser env req) w)) <= 3)%nat).
  { rewrite loginUser_outcome. cbv zeta.
    destruct (negb (truthy (prop (body req) "email")) || _);
      [simpl; split; [reflexivity | lia]|].
    destruct (perform (findUserByEmailService _) w) as [[[u|]|e] w1];
      try (simpl; split; [reflexivity | lia]).
    destruct (perform (bcrypt_compare _ _) w1) as [[[|]|e] w2];
      try (simpl; split; [reflexivity | lia]).
    destruct (negb (envTruthy _)); [simpl; split; [reflexivity | lia]|].
    destruct (perform (sign _ _ _ _) w2) as [[token|e] w3];
      simpl; (split; [reflexivity | lia]). }
  assert (Hupdate :
    forallb updateUserCall (calls (exec perform (updateUser req) w)) = true /\
    (length (calls (exec perform (updateUser req) w)) <= 2)%nat).
  { rewrite updateUser_outcome. cbv zeta.
    destruct (user req) as [u|]; [|simpl; split; [reflexivity | lia]].
    destruct (truthy (prop (body req) "password")).
    - destruct (perform (bcrypt_hash _ _) w) as [[hashed|e] w1];
        [|simpl; split; [reflexivity | lia]].
      destruct (perform (updateUserService _ _) w1) as [[[]|e] w2];
        simpl; (split; [reflexivity | lia]).
    - destruct (perform (updateUserService _ _) w) as [[[]|e] w2];
        simpl; (split; [reflexivity | lia]). }
  assert (Hdelete :
    forallb isDelete (calls (exec perform (deleteUser req) w)) = true).
  { rewrite deleteUser_outcome. destruct (user req) as [u|]; [|reflexivity].
    cbv zeta.
    destruct (perform (deleteUserService _) w) as [[[]|e] w1]; reflexivity. }
  assert (Hlist :
    forallb isList (calls (exec perform (getUsers req) w)) = true).
  { rewrite getUsers_outcome.
    destruct (perform getUsersService w) as [[users|e] w1]; reflexivity. }
  tauto.
Qed.

(** X21: [loginUser] never signs with an empty or missing secret.
    Whenever it calls [sign], the secret is the value of JWT_SECRET, which
    is set and not empty, and the lifetime is the value of JWT_EXPIRES_IN
    when that is set and not empty, and "1h" otherwise. *)
Theorem loginUser_signs_with_configured_secret (env : gmap string jsstring)
    (req : Request) (w : W) (payloadUid : jsstring) (payloadEmail : JsValue)
    (secret expiresIn : jsstring) :
  In (sign payloadUid payloadEmail secret expiresIn)
     (calls (exec perform (loginUser env req) w)) ->
  env !! "JWT_SECRET" = Some secret /\ secret <> [] /\
  ((env !! "JWT_EXPIRES_IN" = Some expiresIn /\ expiresIn <> []) \/
   (expiresIn = lit "1h" /\
    (env !! "JWT_EXPIRES_IN" = None \/ env !! "JWT_EXPIRES_IN" = Some []))).
Proof.
  rewrite loginUser_outcome. cbv zeta.
  destruct (negb (truthy (prop (body req) "email")) || _); [intros []|].
  destruct (perform (findUserByEmailService _) w) as [[[u|]|e] w1];
    [|simpl; intros [[=]|[]]..].
  destruct (perform (bcrypt_compare _ _) w1) as [[[|]|e] w2];
    [|simpl; intros [[=]|[[=]|[]]]..].
  destruct (envTruthy (env !! "JWT_SECRET")) eqn:Hsecret;
    [|simpl; intros [[=]|[[=]|[]]]].
  cbn [negb].
  assert (Hcalls : forall o : Outcome W Response,
            calls o = [] ->
            In (sign payloadUid payloadEmail secret expiresIn)
               (calls (after (findUserByEmailService (prop (body req) "email"))
                  (after (bcrypt_compare (prop (body req) "password")
                                         (prop (fields u) "password"))
                     (after (sign (id u) (prop (fields u) "email")
                                  (default [] (env !! "JWT_SECRET")) (expiresInOf env))
                        o)))) ->
            secret = default [] (env !! "JWT_SECRET") /\ expiresIn = expiresInOf env).
  { intros o Ho. simpl. rewrite Ho. intros [[=]|[[=]|[[= _ _ <- <-]|[]]]]. auto. }
  intros Hin.
  assert (Hargs : secret = default [] (env !! "JWT_SECRET") /\
                  expiresIn = expiresInOf env).
  { destruct (perform (sign _ _ _ _) w2) as [[token|e] w3];
      eapply Hcalls; try exact Hin; reflexivity. }
  destruct Hargs as [-> ->]. unfold expiresInOf.
  destruct (env !! "JWT_SECRET") as [[|c s]|]; try discriminate Hsecret.
  split; [reflexivity|]. split; [discriminate|].
  destruct (env !! "JWT_EXPIRES_IN") as [[|c' s']|]; simpl.
  - right. auto.
  - left. split; [reflexivity | discriminate].
  - right. auto.
Qed.

(** *** The checks of the protected handlers *)

(** C9, as the code has it.
    - Every route to the list, update and delete handlers runs
      [verifyToken] first.
    - No handler looks at the token or at the headers: the outcome of
      [getUsers] is the same for every request, that of [deleteUser]
      depends on the request through [req.user] only, and that of
      [updateUser] through [req.user] and the body only.
    - [getUsers] performs no check of its own: it calls [getUsersService]
      at once and answers 200 with its list, or 500 when it fails; it never
      answers 401.
    - [updateUser] and [deleteUser] do perform a check of their own:
      without an identity in [req.user] they answer 401 "Token inválido"
      and call nothing.
    - With an identity they trust it: they never answer 401, they act on
      its [uid], and they answer 200 once the collaborators have answered,
      or 500 with the message of the error when one of them fails. *)
Theorem handlers_check_identity_presence (req : Request) (w : W) :
  (forall r, In r allRoutes -> existsb protected (chain r) = true -> gated r = true) /\
  (forall req', exec perform (getUsers req') w = exec perform (getUsers req) w) /\
  (forall req', user req' = user req ->
     exec perform (deleteUser req') w = exec perform (deleteUser req) w) /\
  (forall req', user req' = user req -> body req' = body req ->
     exec perform (updateUser req') w = exec perform (updateUser req) w) /\
  exec perform (getUsers req) w =
    match perform getUsersService w with
    | (Rejected e, w1) => after getUsersService (serverError e w1)
    | (Ok users, w1) => after getUsersService (answered (res 200 (Users users)) w1)
    end /\
  answers401 (exec perform (getUsers req) w) = false /\
  (user req = None ->
     exec perform (updateUser req) w = answered (res 401 (Message invalidTokenMessage)) w /\
     exec perform (deleteUser req) w = answered (res 401 (Message invalidTokenMessage)) w) /\
  (forall u, user req = Some u ->
     answers401 (exec perform (updateUser req) w) = false /\
     answers401 (exec perform (deleteUser req) w) = false /\
     (forall t, In t (targets (calls (exec perform (updateUser req) w))) -> t = uid u) /\
     targets (calls (exec perform (deleteUser req) w)) = [uid u] /\
     exec perform (deleteUser req) w =
       (let delete := deleteUserService (uid u) in
        match perform delete w with
        | (Rejected e, w1) => after delete (serverError e w1)
        | (Ok _, w1) =>
            after delete
              (answered (res 200 (Message "Usuario eliminado correctamente")) w1)
        end) /\
     exec perform (updateUser req) w =
       (let pw := prop (body req) "password" in
        let hash := bcrypt_hash pw 10 in
        let finish (data : gmap string JsValue) (w1 : W) :=
          let update := updateUserService (uid u) data in
          match perform update w1 with
          | (Rejected e, w2) => after update (serverError e w2)
          | (Ok _, w2) =>
              after update (answered (res 200 (Message "Usuario actualizado")) w2)
          end in
        if truthy pw
        then match perform hash w with
             | (Rejected e, w1) => after hash (serverError e w1)
             | (Ok hashed, w1) =>
                 after hash (finish (<["password" := JStr hashed]> (body req)) w1)
             end
        else finish (body req) w)).
Proof.
  split; [exact protected_routes_gated|].
  split; [intros req'; rewrite !getUsers_outcome; reflexivity|].
  split; [intros req' Hu; rewrite !deleteUser_outcome, Hu; reflexivity|].
  split; [intros req' Hu Hb; rewrite !updateUser_outcome; cbv zeta;
          rewrite Hu, Hb; reflexivity|].
  split; [apply getUsers_outcome|].
  split; [apply getUsers_never_401|]. split.
  - intros Hu. split;
      [apply updateUser_no_identity | apply deleteUser_no_identity]; exact Hu.
  - intros u Hu.
    split; [eapply updateUser_identity_never_401; exact Hu|].
    split; [eapply deleteUser_identity_never_401; exact Hu|]. split; [|split; [|split]].
    + rewrite (updateUser_targets perform req w u Hu). intros t Ht.
      destruct (truthy (prop (body req) "password"));
        [destruct (fst (perform _ w))|]; simpl in Ht; intuition.
    + rewrite (deleteUser_calls perform req w u Hu). reflexivity.
    + rewrite deleteUser_outcome, Hu. reflexivity.
    + rewrite updateUser_outcome, Hu. reflexivity.
Qed.

End EveryCollaborator.

(** ** The routers *)

(** X19: in every router, [verifyToken] runs first on exactly the routes
    that end in [getUsers], [updateUser] or [deleteUser]; the routes to
    register, log in, log out and reset a password are not gated.  No
    router declares two routes for the same method and path. *)
Theorem routes_gated_exactly_when_protected (r : Route) :
  In r allRoutes ->
  (gated r = true <-> existsb protected (chain r) = true) /\
  NoDup (List.map routeKey userRoutes) /\
  NoDup (List.map routeKey userLoginRoutes) /\
  NoDup (List.map routeKey authRoutes).
Proof.
  intros Hin. split.
  - assert (Hall : forallb (fun r => Bool.eqb (gated r) (existsb protected (chain r)))
                           allRoutes = true) by reflexivity.
    rewrite forallb_forall in Hall. specialize (Hall r Hin).
    apply Bool.eqb_prop in Hall. rewrite Hall. tauto.
  - repeat split; apply (bool_decide_unpack _); vm_compute; reflexivity.
Qed.

(** X20: the two users routers only name handlers that
    user.controller.ts exports (and [verifyToken]); of the four handlers the
    auth router imports from that file, only [loginUser] is exported by it:
    [logoutUser], [forgotPassword] and [resetPassword] are not. *)
Theorem routers_against_controller_exports (m : Middleware) :
  (In m (handlersOf (userRoutes ++ userLoginRoutes)) ->
     m = VerifyToken \/ exported m = true) /\
  (In m (handlersOf authRoutes) ->
     (exported m = true <-> m = LoginUser) /\
     (exported m = false <-> m = LogoutUser \/ m = ForgotPassword \/ m = ResetPassword)).
Proof.
  split.
  - destruct m; vm_compute; intuition discriminate.
  - destruct m; vm_compute; intuition discriminate.
Qed.

(** ** The further properties at concrete inputs *)

Ltac computed := vm_compute; reflexivity.

Lemma isValidEmail_one_at_no_space_witness :
  count_occ N.eq_dec (lit "a@b.com") 64%N = 1%nat /\
  forallb (fun c => negb (isSpace c)) (lit "a@b.com") = true /\
  (5 <= length (lit "a@b.com"))%nat.
Proof. apply (isValidEmail_one_at_no_space (lit "a@b.com")). reflexivity. Defined.

Lemma isValidPassword_rejects_witness :
  isValidPassword (lit "Abc!") = false /\
  isValidPassword (lit "Abcdefgh1234") = false.
Proof.
  split.
  - apply (isValidPassword_rejects (lit "Abc!")). left. simpl. lia.
  - apply (isValidPassword_rejects (lit "Abcdefgh1234")). right. right.
    intros c Hc. simpl in Hc.
    repeat (destruct Hc as [<-|Hc]; [reflexivity|]). destruct Hc.
Defined.

Lemma isValidPassword_extends_witness :
  isValidPassword (lit "Abcdefg!" ++ lit "0123456789012345678901234567890123456789") = true /\
  isValidPassword (lit "0123456789012345678901234567890123456789" ++ lit "Abcdefg!") = true.
Proof.
  apply (isValidPassword_extends (lit "Abcdefg!")
           (lit "0123456789012345678901234567890123456789")).
  - reflexivity.
  - intros c Hc. simpl in Hc.
    repeat (destruct Hc as [<-|Hc]; [reflexivity|]). destruct Hc.
Defined.

Lemma isValidPassword_non_ascii_special_witness :
  isValidPassword accentedPassword = true.
Proof.
  apply (isValidPassword_non_ascii_special accentedPassword 233%N).
  - simpl. lia.
  - intros d Hd. simpl in Hd.
    repeat (destruct Hd as [<-|Hd]; [reflexivity|]). destruct Hd.
  - exists 98%N. split; [simpl; tauto | reflexivity].
  - exists 65%N. split; [simpl; tauto | reflexivity].
  - simpl. tauto.
  - lia.
Defined.

Lemma createUser_boolean_or_integer_password_witness :
  exec services (createUser 0 (withBody numericPasswordRegistration)) emptyWorld =
  answered (res 400 (Message weakPasswordMessage)) emptyWorld.
Proof.
  apply (createUser_boolean_or_integer_password services 0
           (withBody numericPasswordRegistration) emptyWorld).
  - present.
  - right. exists 12345678. split; [reflexivity | unfold safeInteger; lia].
Defined.

Lemma createUser_ignores_email_format_witness :
  isValidEmail (lit "not-an-email") = false /\
  result (exec services (createUser 0 (withBody badEmailRegistration)) emptyWorld) =
    Ok (res 201 (Created (lit "user1") createdMessage)).
Proof.
  split; [reflexivity|].
  edestruct (createUser_ignores_email_format services 0
               (withBody badEmailRegistration) emptyWorld) as [Hexec _].
  - present.
  - computed.
  - computed.
  - computed.
  - computed.
  - rewrite Hexec. reflexivity.
Defined.

Lemma createUser_creates_only_after_checks_witness :
  userDataOf 0 registration = userDataOf 0 (body (withBody registration)) /\
  (forall k, In k required -> ~ missing (body (withBody registration)) k) /\
  isValidPassword (toString (prop (body (withBody registration)) "password")) = true /\
  exists w1,
    services (findUserByEmailService (prop (body (withBody registration)) "email"))
             emptyWorld = (Ok None, w1).
Proof.
  apply (createUser_creates_only_after_checks services 0 (withBody registration)
           emptyWorld (userDataOf 0 registration)).
  vm_compute. right. left. reflexivity.
Defined.

Lemma createUser_store_failure_witness :
  result (exec (faulty isFind) (createUser 0 (withBody registration)) emptyWorld) =
    Ok (res 500 (ErrorBody "unavailable")) /\
  calls (exec (faulty isFind) (createUser 0 (withBody registration)) emptyWorld) =
    [findUserByEmailService (JStr (lit "a@b.com"))] /\
  result (exec (faulty isCreate) (createUser 0 (withBody registration)) emptyWorld) =
    Ok (res 500 (ErrorBody "unavailable")).
Proof.
  destruct (createUser_store_failure (faulty isFind) 0 (withBody registration)
              emptyWorld emptyWorld unavailable) as [Hlookup _];
    [present | computed |].
  destruct (createUser_store_failure (faulty isCreate) 0 (withBody registration)
              emptyWorld emptyWorld unavailable) as [_ Hcreate];
    [present | computed |].
  rewrite (Hlookup eq_refl), (Hcreate emptyWorld eq_refl eq_refl).
  repeat split.
Defined.

Lemma loginUser_token_only_for_verified_witness :
  envTruthy (configured !! "JWT_SECRET") = true /\
  exists u w1 w2 w3 token,
    services (findUserByEmailService (prop (body goodLogin) "email")) oneUserWorld
      = (Ok (Some u), w1) /\
    services (bcrypt_compare (prop (body goodLogin) "password")
                             (prop (fields u) "password")) w1 = (Ok true, w2) /\
    services (sign (id u) (prop (fields u) "email")
                   (default [] (configured !! "JWT_SECRET")) (expiresInOf configured)) w2
      = (Ok token, w3) /\
    res 200 (Token (issueToken (lit "user1") (JStr (lit "a@b.com"))
                               (lit "s3cret") (lit "1h"))) = res 200 (Token token).
Proof.
  apply (loginUser_token_only_for_verified services configured goodLogin oneUserWorld
           (res 200 (Token (issueToken (lit "user1") (JStr (lit "a@b.com"))
                                       (lit "s3cret") (lit "1h"))))).
  - computed.
  - reflexivity.
Defined.

Lemma loginUser_collaborator_failure_witness :
  result (exec (faulty isFind) (loginUser configured goodLogin) oneUserWorld) =
    Ok (res 500 (ErrorBody "unavailable")) /\
  result (exec services (loginUser configured numericPasswordLogin) oneUserWorld) =
    Ok (res 500 (ErrorBody "data and hash must be strings")) /\
  result (exec (faulty isSign) (loginUser configured goodLogin) oneUserWorld) =
    Ok (res 500 (ErrorBody "unavailable")).
Proof.
  destruct (loginUser_collaborator_failure (faulty isFind) configured goodLogin
              oneUserWorld oneUserWorld unavailable) as [Hlookup _];
    [not_missing | not_missing |].
  destruct (loginUser_collaborator_failure services configured numericPasswordLogin
              oneUserWorld oneUserWorld
              {| message := "data and hash must be strings" |}) as [_ Hfound];
    [not_missing | not_missing |].
  destruct (Hfound storedUser oneUserWorld) as [Hverify _]; [computed|].
  destruct (loginUser_collaborator_failure (faulty isSign) configured goodLogin
              oneUserWorld oneUserWorld unavailable) as [_ Hfound'];
    [not_missing | not_missing |].
  destruct (Hfound' storedUser oneUserWorld) as [_ Hsign]; [computed|].
  rewrite (Hlookup eq_refl), (Hverify eq_refl).
  rewrite (Hsign oneUserWorld); [repeat split | computed..].
Defined.

Lemma updateUser_hashes_any_password_witness :
  isValidPassword (lit "a") = false /\
  calls (exec services (updateUser weakPasswordUpdate) oneUserWorld) =
    [bcrypt_hash (JStr (lit "a")) 10;
     updateUserService (lit "user1")
       (<["password" := JStr (bcryptHash 1 (lit "a"))]> (body weakPasswordUpdate))] /\
  result (exec services (updateUser weakPasswordUpdate) oneUserWorld) =
    Ok (res 200 (Message "Usuario actualizado")).
Proof.
  split; [reflexivity|].
  edestruct (updateUser_hashes_any_password services weakPasswordUpdate oneUserWorld)
    as [Hexec _].
  - reflexivity.
  - computed.
  - discriminate.
  - computed.
  - computed.
  - rewrite Hexec. split; reflexivity.
Defined.

Lemma updateUser_falsy_password_unhashed_witness :
  calls (exec services (updateUser emptyPasswordUpdate) oneUserWorld) =
    [updateUserService (lit "user1") {[ "password" := JStr [] ]}].
Proof.
  edestruct (updateUser_falsy_password_unhashed services emptyPasswordUpdate
               oneUserWorld) as [].
  - reflexivity.
  - computed.
  - computed.
  - reflexivity.
Defined.

Lemma updateUser_failure_witness :
  result (exec services (updateUser numericPasswordUpdate) oneUserWorld) =
    Ok (res 500 (ErrorBody "data must be a string or Buffer and salt must either be a salt string or a number of rounds")) /\
  existsb isUpdate (calls (exec services (updateUser numericPasswordUpdate) oneUserWorld))
    = false /\
  result (exec (faulty isUpdate) (updateUser renameRequest) oneUserWorld) =
    Ok (res 500 (ErrorBody "unavailable")) /\
  result (exec (faulty isUpdate) (updateUser weakPasswordUpdate) oneUserWorld) =
    Ok (res 500 (ErrorBody "unavailable")) /\
  calls (exec (faulty isUpdate) (updateUser weakPasswordUpdate) oneUserWorld) =
    [bcrypt_hash (JStr (lit "a")) 10;
     updateUserService (lit "user1")
       (<["password" := JStr (bcryptHash 1 (lit "a"))]> (body weakPasswordUpdate))].
Proof.
  destruct (updateUser_failure services numericPasswordUpdate oneUserWorld oneUserWorld
              alice {| message := "data must be a string or Buffer and salt must either be a salt string or a number of rounds" |}
              eq_refl) as (Hhash & _ & _).
  destruct (updateUser_failure (faulty isUpdate) renameRequest oneUserWorld oneUserWorld
              alice unavailable eq_refl) as (_ & Hstore & _).
  destruct (updateUser_failure (faulty isUpdate) weakPasswordUpdate oneUserWorld
              {| store := store oneUserWorld; nextId := 2; hashes := 2 |}
              alice unavailable eq_refl) as (_ & _ & Hlate).
  destruct Hhash as [Hexec Hnone]; [computed | computed |].
  rewrite Hexec, Hstore; [| computed | computed].
  rewrite (Hlate (bcryptHash 1 (lit "a"))
                 {| store := store oneUserWorld; nextId := 2; hashes := 2 |});
    [| computed | computed | computed].
  repeat split.
Defined.

Lemma handlers_status_codes_witness :
  (201 = 201 \/ 201 = 400 \/ 201 = 500) /\
  (401 = 200 \/ 401 = 400 \/ 401 = 401 \/ 401 = 500).
Proof.
  split.
  - apply (handlers_status_codes services 0 configured (withBody registration)
             emptyWorld 201). computed.
  - apply (handlers_status_codes services 0 configured wrongPasswordLogin
             oneUserWorld 401). computed.
Defined.

Lemma handlers_check_identity_presence_witness :
  exec services (updateUser noRequest) oneUserWorld =
    answered (res 401 (Message invalidTokenMessage)) oneUserWorld /\
  exec services (updateUser spoofedRequest) oneUserWorld =
    exec services
      (updateUser {| body := body spoofedRequest; params := ∅; query := ∅;
                     headers := {[ "authorization" := lit "Bearer forged" ]};
                     user := Some alice |}) oneUserWorld /\
  answers401 (exec services (updateUser renameRequest) oneUserWorld) = false /\
  targets (calls (exec services (deleteUser renameRequest) oneUserWorld)) = [lit "user1"].
Proof.
  destruct (handlers_check_identity_presence services noRequest oneUserWorld)
    as (_ & _ & _ & _ & _ & _ & Hnone & _).
  destruct (handlers_check_identity_presence services
              {| body := body spoofedRequest; params := ∅; query := ∅;
                 headers := {[ "authorization" := lit "Bearer forged" ]};
                 user := Some alice |} oneUserWorld)
    as (_ & _ & _ & Hsame & _).
  destruct (handlers_check_identity_presence services renameRequest oneUserWorld)
    as (_ & _ & _ & _ & _ & _ & _ & Hsome).
  destruct (Hnone eq_refl) as [Hupdate _].
  destruct (Hsome alice eq_refl) as (Hnever & _ & _ & Hdelete & _).
  split; [exact Hupdate|].
  split; [exact (Hsame spoofedRequest eq_refl eq_refl)|].
  split; [exact Hnever | exact Hdelete].
Defined.

Lemma deleteUser_reads_identity_only_witness :
  exec services (deleteUser renameRequest) oneUserWorld =
  exec services (deleteUser spoofedRequest) oneUserWorld.
Proof.
  exact (proj1 (deleteUser_reads_identity_only services renameRequest spoofedRequest
                  oneUserWorld eq_refl)).
Defined.

Lemma getUsers_returns_store_list_witness :
  result (exec services (getUsers noRequest) oneUserWorld) =
    Ok (res 200 (Users [storedUser])) /\
  result (exec (faulty isList) (getUsers noRequest) oneUserWorld) =
    Ok (res 500 (ErrorBody "unavailable")).
Proof.
  destruct (getUsers_returns_store_list services noRequest oneUserWorld) as (Hok & _).
  destruct (getUsers_returns_store_list (faulty isList) noRequest oneUserWorld)
    as (_ & Hfail & _).
  rewrite (Hok [storedUser] oneUserWorld), (Hfail unavailable oneUserWorld);
    [split; reflexivity | computed..].
Defined.

Lemma routes_gated_exactly_when_protected_witness :
  gated {| method := PUT; path := "/profile"; chain := [VerifyToken; UpdateUser] |} = true <->
  existsb protected
    (chain {| method := PUT; path := "/profile"; chain := [VerifyToken; UpdateUser] |}) = true.
Proof.
  apply (routes_gated_exactly_when_protected
           {| method := PUT; path := "/profile"; chain := [VerifyToken; UpdateUser] |}).
  simpl. tauto.
Defined.

Lemma routers_against_controller_exports_witness :
  exported LogoutUser = false <->
  LogoutUser = LogoutUser \/ LogoutUser = ForgotPassword \/ LogoutUser = ResetPassword.
Proof.
  apply (routers_against_controller_exports LogoutUser).
  simpl. tauto.
Defined.

Lemma loginUser_signs_with_configured_secret_witness :
  configured !! "JWT_SECRET" = Some (lit "s3cret") /\ lit "s3cret" <> [] /\
  ((configured !! "JWT_EXPIRES_IN" = Some (lit "1h") /\ lit "1h" <> []) \/
   (lit "1h" = lit "1h" /\
    (configured !! "JWT_EXPIRES_IN" = None \/ configured !! "JWT_EXPIRES_IN" = Some []))).
Proof.
  apply (loginUser_signs_with_configured_secret services configured goodLogin
           oneUserWorld (lit "user1") (JStr (lit "a@b.com"))).
  vm_compute. right. right. left. reflexivity.
Defined.
